(** * Bird Observation Dashboard: the filter-and-aggregate pipeline of app.py

    A shallow embedding of [app.py] and of the pandas operations it calls.
    The script loads one CSV file, coerces five columns to numbers, filters
    the table by three membership masks, and derives three KPI numbers and
    fourteen chart tables from the filtered table.

    Conventions of the embedding:
    - a cell of a table is a number, a string or the missing marker (NaN);
      numbers are rationals, no property below depends on rounding;
    - a table is a list of column labels and a list of rows, a row being a
      finite map from column label to cell;
    - a Python exception is the [Raise] branch of [result]; the script itself
      runs in a monad that also carries the page rendered so far, since
      Streamlit keeps what was drawn before an exception. *)

From Stdlib Require Import QArith Qcanon.
From stdpp Require Import numbers countable strings sorting gmap list.

(** ** Cells *)

Inductive cell :=
  | CNum (q : Qc)
  | CStr (s : string)
  | CNaN.

Global Instance cell_eq_dec : EqDecision cell.
Proof. solve_decision. Defined.

Definition cell_to_sum (c : cell) : Qc + string + unit :=
  match c with
  | CNum q => inl (inl q)
  | CStr s => inl (inr s)
  | CNaN => inr ()
  end.

Definition cell_of_sum (x : Qc + string + unit) : cell :=
  match x with
  | inl (inl q) => CNum q
  | inl (inr s) => CStr s
  | inr _ => CNaN
  end.

Global Instance cell_countable : Countable cell.
Proof.
  refine (inj_countable' cell_to_sum cell_of_sum _).
  by intros [].
Defined.

(** An integer literal of a table, such as a year. *)
Definition num (z : Z) : cell := CNum (Q2Qc (inject_Z z)).

(** ** Exceptions *)

Inductive exn :=
  | KeyError (key : string)
  | ValueError (msg : string)
  | TypeError (msg : string)
  | FileNotFoundError (path : string)
  | ParserError (msg : string).

Inductive result (A : Type) :=
  | Ok (a : A)
  | Raise (e : exn).

Arguments Ok {A} a.
Arguments Raise {A} e.

Global Instance result_ret : MRet result := λ A a, Ok a.

Global Instance result_bind : MBind result := λ A B k m,
  match m with
  | Ok a => k a
  | Raise e => Raise e
  end.

(** ** Tables *)

Record DataFrame := mkDataFrame {
  columns : list string;
  rows : list (gmap string cell)
}.

(** The cell of a row under a column label. *)
Definition cell_at (r : gmap string cell) (col : string) : cell :=
  default CNaN (r !! col).

(** [len(df)] *)
Definition len (df : DataFrame) : nat := length (rows df).

(** [df[col]]: the column as a series, [KeyError] when the label is not a
    column of the table. *)
Definition getitem (df : DataFrame) (col : string) : result (list cell) :=
  if bool_decide (col ∈ columns df)
  then Ok ((λ r, cell_at r col) <$> rows df)
  else Raise (KeyError col).

(** [s.isin(values)]: one boolean per cell. *)
Definition isin (s : list cell) (values : list cell) : list bool :=
  (λ c, bool_decide (c ∈ values)) <$> s.

(** [a & b] on boolean series. *)
Definition mask_and (a b : list bool) : list bool := zip_with andb a b.

(** The rows kept by a boolean mask. *)
Fixpoint select {A} (mask : list bool) (l : list A) : list A :=
  match mask, l with
  | b :: mask, x :: l => if b then x :: select mask l else select mask l
  | _, _ => []
  end.

(** [df[mask]]: pandas refuses a mask whose length is not the table's. *)
Definition getitem_mask (df : DataFrame) (mask : list bool) : result DataFrame :=
  if bool_decide (length mask = length (rows df))
  then Ok (mkDataFrame (columns df) (select mask (rows df)))
  else Raise (ValueError "Item wrong length").

(** Line 79:
    [df[df["Year"].isin(years) & df["Season"].isin(seasons)
        & df["Location_Type"].isin(locations)]]. *)
Definition filter_df (df : DataFrame) (years seasons locations : list cell)
  : result DataFrame :=
  y ← getitem df "Year";
  s ← getitem df "Season";
  l ← getitem df "Location_Type";
  getitem_mask df
    (mask_and (mask_and (isin y years) (isin s seasons)) (isin l locations)).

(** The three columns read by the filter. *)
Definition filter_columns : list string := ["Year"; "Season"; "Location_Type"].

(** The table has every column of the list. *)
Definition has_columns (df : DataFrame) (cols : list string) : Prop :=
  Forall (λ c, c ∈ columns df) cols.

Global Instance has_columns_dec df cols : Decision (has_columns df cols).
Proof. unfold has_columns. apply _. Defined.

(** A row passes the three selections. *)
Definition selected (years seasons locations : list cell)
    (r : gmap string cell) : Prop :=
  cell_at r "Year" ∈ years ∧
  cell_at r "Season" ∈ seasons ∧
  cell_at r "Location_Type" ∈ locations.

Global Instance selected_dec years seasons locations r :
  Decision (selected years seasons locations r).
Proof. unfold selected. apply _. Defined.

(** ** Series operations *)

(** [s.dropna()] *)
Definition dropna (s : list cell) : list cell := filter (λ c, c ≠ CNaN) s.

(** [s.unique()]: the distinct cells in order of first appearance; [seen]
    is the hash table of the scan. *)
Fixpoint unique_from (seen : gset cell) (s : list cell) : list cell :=
  match s with
  | [] => []
  | c :: s =>
      if bool_decide (c ∈ seen) then unique_from seen s
      else c :: unique_from ({[c]} ∪ seen) s
  end.

Definition unique (s : list cell) : list cell := unique_from ∅ s.

(** [s.nunique()]: pandas takes [unique()], removes the missing marker and
    returns the length. *)
Definition nunique (s : list cell) : nat := length (dropna (unique s)).

(** [s.count()]: the number of cells that are not missing. *)
Definition count (s : list cell) : nat := length (dropna s).

(** The order used to sort labels: numbers by value, strings by code point.
    A column read from a CSV file holds numbers only or strings only (plus
    missing cells), so the order between a number and a string is never
    consulted on such a column; it is fixed here as number below string. *)
Definition cell_leb (a b : cell) : bool :=
  match a, b with
  | CNum p, CNum q => Qle_bool p q
  | CStr s, CStr t => String.leb s t
  | CNum _, _ => true
  | CStr _, CNaN => true
  | CNaN, CNaN => true
  | _, _ => false
  end.

Definition cell_le (a b : cell) : Prop := Is_true (cell_leb a b).

Global Instance cell_le_dec a b : Decision (cell_le a b).
Proof. unfold cell_le. apply _. Defined.

(** Python's [sorted] on a list of cells. *)
Definition sorted (l : list cell) : list cell := merge_sort cell_le l.

(** A series of numbers indexed by labels, as [value_counts] and the
    group-by reductions return it. *)
Abbreviation counts := (list (cell * nat)).

(** The number of cells of a series equal to a label. *)
Definition occurrences (c : cell) (s : list cell) : nat :=
  length (filter (λ x, x = c) s).

(** Descending order of the aggregate. *)
Definition count_ge (a b : cell * nat) : Prop := b.2 ≤ a.2.

Global Instance count_ge_dec a b : Decision (count_ge a b).
Proof. unfold count_ge. apply _. Defined.

(** [sort_values(ascending=False)] on the aggregate. pandas leaves the
    order of equal aggregates to the sorting routine. *)
Definition sort_desc (t : counts) : counts := merge_sort count_ge t.

(** [s.value_counts()]: every label that is not missing with its number of
    occurrences, most frequent first. *)
Definition value_counts (s : list cell) : counts :=
  sort_desc ((λ k, (k, occurrences k s)) <$> unique (dropna s)).

(** [.head(n)] *)
Definition head {A} (n : nat) (l : list A) : list A := take n l.

(** The sum of the values of an aggregate. *)
Definition total (t : counts) : nat := sum_list_with snd t.

(** ** Table operations *)

(** The rows of one group. *)
Definition group_rows (df : DataFrame) (key : string) (k : cell)
  : list (gmap string cell) :=
  filter (λ r, cell_at r key = k) (rows df).

(** [df.groupby(key)[col]]: the groups in ascending order of their label,
    each with its cells of [col]; rows whose label is missing belong to no
    group. *)
Definition groupby (df : DataFrame) (key col : string)
  : result (list (cell * list cell)) :=
  ks ← getitem df key;
  if bool_decide (col ∈ columns df)
  then Ok ((λ k, (k, (λ r, cell_at r col) <$> group_rows df key k))
             <$> sorted (unique (dropna ks)))
  else Raise (KeyError ("Column not found: " +:+ col)).

(** [df.groupby(key)[col].count().reset_index()] *)
Definition groupby_count (df : DataFrame) (key col : string) : result counts :=
  g ← groupby df key col;
  Ok ((λ kv, (kv.1, count kv.2)) <$> (g : list (cell * list cell))).

(** [df.groupby(key)[col].nunique().reset_index()] *)
Definition groupby_nunique (df : DataFrame) (key col : string) : result counts :=
  g ← groupby df key col;
  Ok ((λ kv, (kv.1, nunique kv.2)) <$> (g : list (cell * list cell))).

(** [df[col].value_counts()] *)
Definition column_value_counts (df : DataFrame) (col : string) : result counts :=
  s ← getitem df col;
  Ok (value_counts s).

(** How Python prints a list of labels. *)
Definition show_labels (l : list string) : string :=
  "[" +:+ String.concat ", " ((λ c, "'" +:+ c +:+ "'") <$> l) +:+ "]".

(** A row has a value in every column of the subset. *)
Definition complete_on (subset : list string) (r : gmap string cell) : Prop :=
  Forall (λ c, cell_at r c ≠ CNaN) subset.

Global Instance complete_on_dec subset r : Decision (complete_on subset r).
Proof. unfold complete_on. apply _. Defined.

(** [df.dropna(subset=...)]: [KeyError] with the labels that are not
    columns. *)
Definition dropna_subset (df : DataFrame) (subset : list string)
  : result DataFrame :=
  let missing := filter (λ c, c ∉ columns df) subset in
  if bool_decide (missing = [])
  then Ok (mkDataFrame (columns df) (filter (complete_on subset) (rows df)))
  else Raise (KeyError (show_labels missing)).

(** [df[col] = s]: the column is replaced, or appended when it is new. *)
Definition setitem (df : DataFrame) (col : string) (s : list cell)
  : result DataFrame :=
  if bool_decide (length s = length (rows df))
  then Ok (mkDataFrame
             (if bool_decide (col ∈ columns df) then columns df
              else columns df ++ [col])
             (zip_with (λ r c, <[col:=c]> r) (rows df) s))
  else Raise (ValueError "Length of values does not match length of index").

(** ** The rendered page *)

Inductive chart_kind := Bar | Pie | Scatter | Histogram.

(** What a chart is drawn from: an aggregate, or the records themselves. *)
Inductive chart_data :=
  | Aggregate (t : counts)
  | Records (df : DataFrame).

Inductive element :=
  | Markdown (body : string)
  | Title (text : string)
  | SidebarHeader (text : string)
  | Multiselect (label : string) (options selected_by_default : list cell)
  | Metric (label : string) (value : nat)
  | Subheader (text : string)
  | PlotlyChart (kind : chart_kind) (title : string) (data : chart_data).

(** The elements that show data of the table: filter controls, KPI
    counters and charts. Titles and static text are not. *)
Definition shows_data (e : element) : bool :=
  match e with
  | Multiselect _ _ _ | Metric _ _ | PlotlyChart _ _ _ => true
  | _ => false
  end.

Definition is_chart (e : element) : bool :=
  match e with PlotlyChart _ _ _ => true | _ => false end.

(** A run of the script: the page drawn so far is threaded through, and
    is kept when an exception stops the run. *)
Definition script (A : Type) : Type := list element → list element * result A.

Global Instance script_ret : MRet script := λ A a page, (page, Ok a).

Global Instance script_bind : MBind script := λ A B k m page,
  match m page with
  | (page', Ok a) => k a page'
  | (page', Raise e) => (page', Raise e)
  end.

(** One Streamlit call that draws an element. *)
Definition draw (e : element) : script () := λ page, (page ++ [e], Ok ()).

(** A computation that draws nothing. *)
Definition eval {A} (r : result A) : script A := λ page, (page, r).

(** The state of the three sidebar controls: [None] while the user has not
    touched a control, which then returns its default. *)
Record choices := mkChoices {
  chosen_years : option (list cell);
  chosen_seasons : option (list cell);
  chosen_locations : option (list cell)
}.

Definition multiselect (label : string) (options dflt : list cell)
    (chosen : option (list cell)) : script (list cell) :=
  draw (Multiselect label options dflt);;
  mret (default dflt chosen).

(** The three KPI values of lines 85 to 87. *)
Definition unique_species (fdf : DataFrame) : result nat :=
  s ← getitem fdf "Scientific_Name"; Ok (nunique s).

Definition observers (fdf : DataFrame) : result nat :=
  s ← getitem fdf "Observer"; Ok (nunique s).

(** The aggregates of the views that do not need the hour column. *)
Definition season_counts (fdf : DataFrame) : result counts :=
  groupby_count fdf "Season" "Scientific_Name".

Definition hour_counts (fdf : DataFrame) : result counts :=
  groupby_count fdf "Start_Hour" "Scientific_Name".

Definition loc_counts (fdf : DataFrame) : result counts :=
  groupby_nunique fdf "Location_Type" "Scientific_Name".

Definition plot_counts (fdf : DataFrame) : result counts :=
  t ← groupby_nunique fdf "Plot_Name" "Scientific_Name";
  Ok (head 10 (sort_desc t)).

Definition top_species (fdf : DataFrame) : result counts :=
  t ← column_value_counts fdf "Scientific_Name"; Ok (head 10 t).

Definition id_method_counts (fdf : DataFrame) : result counts :=
  column_value_counts fdf "ID_Method".

Definition sex_counts (fdf : DataFrame) : result counts :=
  column_value_counts fdf "Sex".

Definition scatter_records (fdf : DataFrame) : result DataFrame :=
  dropna_subset fdf ["Temperature"; "Humidity"; "Interval_Length"].

Definition disturb_counts (fdf : DataFrame) : result counts :=
  column_value_counts fdf "Disturbance".

Definition histogram_records (fdf : DataFrame) : result DataFrame :=
  dropna_subset fdf ["Distance"].

Definition flyover_counts (fdf : DataFrame) : result counts :=
  column_value_counts fdf "Flyover_Observed".

Definition obs_counts (fdf : DataFrame) : result counts :=
  t ← column_value_counts fdf "Observer"; Ok (head 10 t).

Definition watchlist_counts (fdf : DataFrame) : result counts :=
  column_value_counts fdf "PIF_Watchlist_Status".

Definition aou_counts (fdf : DataFrame) : result counts :=
  t ← column_value_counts fdf "AOU_Code"; Ok (head 10 t).

(** A chart of an aggregate: the aggregate is computed, then drawn. The
    bar or pie figure names the two columns of the aggregate, labels and
    counts, and is built from any such table, an empty one included. *)
Definition chart (kind : chart_kind) (title : string) (t : result counts)
  : script () :=
  t' ← eval t; draw (PlotlyChart kind title (Aggregate t')).

(** A chart of the records themselves, as the histogram of line 168:
    the records are computed, then drawn. The histogram names the one
    column that [dropna] has just read and bins whatever values it
    holds. *)
Definition records_chart (kind : chart_kind) (title : string)
    (d : result DataFrame) : script () :=
  d' ← eval d; draw (PlotlyChart kind title (Records d')).

(** What [px.scatter] does with the column given as [size] when it
    builds the figure. It divides the greatest value of the column by a
    number, which is a [TypeError] when the column holds text, and it
    hands the values to the marker sizes of the figure, which take
    numbers from zero upwards and refuse any other value with a
    [ValueError]. The exceptions carry the name of the column here; the
    wording of plotly's messages is not modelled. *)
Definition is_text (c : cell) : bool :=
  match c with CStr _ => true | _ => false end.

Definition valid_size (c : cell) : bool :=
  match c with CNum q => Qle_bool 0 q | _ => false end.

Definition px_scatter (d : DataFrame) (size : string) : result () :=
  let sizes := (λ r, cell_at r size) <$> rows d in
  if existsb is_text sizes then Raise (TypeError size)
  else if forallb valid_size sizes then Ok ()
  else Raise (ValueError size).

(** The scatter chart of lines 148 to 155: the records are computed, the
    figure is built with the interval length as marker size, then
    drawn. The columns named for colour and hover text, Season and
    Scientific_Name, have been read by the views before it. *)
Definition scatter_chart (title : string) (d : result DataFrame) : script () :=
  d' ← eval d;
  eval (px_scatter d' "Interval_Length");;
  draw (PlotlyChart Scatter title (Records d')).

(** The default selections of lines 75 to 77. *)
Definition year_options (df : DataFrame) : result (list cell) :=
  s ← getitem df "Year"; Ok (sorted (unique (dropna s))).

Definition season_options (df : DataFrame) : result (list cell) :=
  s ← getitem df "Season"; Ok (unique (dropna s)).

Definition location_options (df : DataFrame) : result (list cell) :=
  s ← getitem df "Location_Type"; Ok (unique (dropna s)).

Section App.

(** The parts of pandas that read text. [parse_csv] is the CSV reader on
    the content of a file; [parse_number] is what [to_numeric] reads from
    a string, [None] when it reads no number; [hour_of s i] is the hour
    of the timestamp that [to_datetime(s, errors="coerce")] holds at
    position [i], [None] when it holds none. *)
Variable parse_csv : string → result DataFrame.
Variable parse_number : string → option Qc.
Variable hour_of : list cell → nat → option nat.

(** [pd.read_csv(path)] on a file system. *)
Definition read_csv (fs : gmap string string) (path : string)
  : result DataFrame :=
  match fs !! path with
  | Some content => parse_csv content
  | None => Raise (FileNotFoundError path)
  end.

(** [pd.to_numeric(s, errors="coerce")] *)
Definition to_numeric_cell (c : cell) : cell :=
  match c with
  | CNum q => CNum q
  | CStr s => from_option CNum CNaN (parse_number s)
  | CNaN => CNaN
  end.

Definition to_numeric (s : list cell) : list cell := to_numeric_cell <$> s.

Definition numeric_cols : list string :=
  ["Interval_Length"; "Temperature"; "Humidity"; "Count"; "Distance"].

(** The loop of lines 63 to 65. *)
Fixpoint coerce_columns (cols : list string) (df : DataFrame)
  : result DataFrame :=
  match cols with
  | [] => Ok df
  | col :: cols =>
      if bool_decide (col ∈ columns df)
      then s ← getitem df col;
           df' ← setitem df col (to_numeric s);
           coerce_columns cols df'
      else coerce_columns cols df
  end.

Definition data_file : string := "Cleaned_Bird_Observation_Data.csv".

(** Lines 57 to 67. The [st.cache_data] decorator stores the value of a
    call that returned; it changes neither the value nor an exception, and
    is left out. *)
Definition load_data (fs : gmap string string) : result DataFrame :=
  df ← read_csv fs data_file;
  coerce_columns numeric_cols df.

(** [pd.to_datetime(s, errors="coerce").dt.hour] *)
Definition start_hours (s : list cell) : list cell :=
  imap (λ i _, from_option (λ h, num (Z.of_nat h)) CNaN (hour_of s i)) s.

(** Line 102: the hour column is written into the filtered table. *)
Definition with_start_hour (fdf : DataFrame) : result DataFrame :=
  s ← getitem fdf "Start_Time";
  setitem fdf "Start_Hour" (start_hours s).

Definition kpi_section (fdf : DataFrame) : script () :=
  draw (Metric "Total Observations" (len fdf));;
  n ← eval (unique_species fdf);
  draw (Metric "Unique Species" n);;
  m ← eval (observers fdf);
  draw (Metric "Observers" m).

(** Lines 95 to 199: the fourteen views in the order of the script. *)
Definition views (fdf : DataFrame) : script () :=
  draw (Subheader "📅 Temporal Analysis");;
  chart Bar "Bird Sightings by Season" (season_counts fdf);;
  fdf ← eval (with_start_hour fdf);
  chart Bar "Bird Activity by Hour" (hour_counts fdf);;
  draw (Subheader "📍 Spatial Analysis");;
  chart Bar "Species Diversity by Location Type" (loc_counts fdf);;
  chart Bar "Top 10 Plots by Species Diversity" (plot_counts fdf);;
  draw (Subheader "🦉 Species Analysis");;
  chart Bar "Top 10 Observed Species" (top_species fdf);;
  chart Pie "ID Methods Used" (id_method_counts fdf);;
  chart Pie "Sex Ratio of Birds Observed" (sex_counts fdf);;
  draw (Subheader "🌦 Environmental Conditions");;
  scatter_chart "Temperature vs Humidity by Season" (scatter_records fdf);;
  chart Bar "Impact of Disturbance on Observations" (disturb_counts fdf);;
  draw (Subheader "📏 Distance & Behavior");;
  records_chart Histogram "Distribution of Observation Distances"
    (histogram_records fdf);;
  chart Pie "Flyover Observations" (flyover_counts fdf);;
  draw (Subheader "👩‍🔬 Observer Trends");;
  chart Bar "Top 10 Observers by Number of Observations" (obs_counts fdf);;
  draw (Subheader "🛡 Conservation Insights");;
  chart Bar "Watchlist Status Distribution" (watchlist_counts fdf);;
  chart Bar "Top 10 AOU Codes" (aou_counts fdf);;
  draw (Markdown
    "📌 *Dashboard generated using Streamlit & Plotly — Bird Monitoring Data Analysis*").

(** The static style sheet of lines 11 to 49; its text is not spelled
    out. *)
Definition page_style : string := "<style>...</style>".

(** The whole script, run top to bottom on every interaction.
    [st.set_page_config] and the layout containers ([st.columns]) place
    elements without drawing any, and are left out. The construction of a
    figure by plotly is modelled where it can stop the run, in the
    scatter chart. *)
Definition app (fs : gmap string string) (ui : choices) : script () :=
  draw (Markdown page_style);;
  draw (Title "🦜 Bird Observation Dashboard");;
  df ← eval (load_data fs);
  draw (SidebarHeader "🔍 Filters");;
  opts ← eval (year_options df);
  years ← multiselect "Select Year(s)" opts opts (chosen_years ui);
  opts ← eval (season_options df);
  seasons ← multiselect "Select Season(s)" opts opts (chosen_seasons ui);
  opts ← eval (location_options df);
  locations ← multiselect "Select Location Type" opts opts
                (chosen_locations ui);
  filtered_df ← eval (filter_df df years seasons locations);
  kpi_section filtered_df;;
  views filtered_df.

(** The page and the outcome of a run from an empty page. *)
Definition run {A} (m : script A) : list element * result A := m [].

End App.

(** ** Quantities that the properties refer to *)

(** The set of the values found in a column, the missing marker apart. *)
Definition distinct_values (df : DataFrame) (col : string) : gset cell :=
  list_to_set ((λ r, cell_at r col) <$> rows df) ∖ {[CNaN]}.

(** The number of rows that have a value in every column of the list. *)
Definition counted_rows (df : DataFrame) (cols : list string) : nat :=
  length (filter (complete_on cols) (rows df)).

(** The groups of a table: labels sorted, distinct and not missing. *)
Definition group_labels (df : DataFrame) (key : string) : list cell :=
  sorted (unique (dropna ((λ r, cell_at r key) <$> rows df))).

(** [top] holds the [n] entries of [agg] with the greatest values,
    greatest first. *)
Definition top_of (n : nat) (agg top : counts) : Prop :=
  length top = n `min` length agg ∧
  StronglySorted count_ge top ∧
  ∃ rest, agg ≡ₚ top ++ rest ∧ ∀ x y, x ∈ top → y ∈ rest → y.2 ≤ x.2.

(** One row after the loop of [load_data]: the columns of [cols] that
    the table has are read as numbers, one after the other. *)
Definition coerce_row (parse_number : string → option Qc)
    (present cols : list string) (r : gmap string cell) : gmap string cell :=
  foldl (λ r col,
           if bool_decide (col ∈ present)
           then <[col := to_numeric_cell parse_number (cell_at r col)]> r
           else r)
        r cols.

(** The number of charts on a page. *)
Definition chart_count (page : list element) : nat :=
  sum_list_with (λ e, if is_chart e then 1 else 0) page.

(** The columns that the fourteen views read. *)
Definition view_columns : list string :=
  ["Season"; "Scientific_Name"; "Start_Time"; "Location_Type"; "Plot_Name";
   "ID_Method"; "Sex"; "Temperature"; "Humidity"; "Interval_Length";
   "Disturbance"; "Distance"; "Flyover_Observed"; "Observer";
   "PIF_Watchlist_Status"; "AOU_Code"].

(** The computation returns a value. *)
Definition succeeds {A} (r : result A) : Prop := ∃ a, r = Ok a.

(** The column holds no value at all. *)
Definition all_missing (df : DataFrame) (col : string) : Prop :=
  Forall (λ r, cell_at r col = CNaN) (rows df).

(** The kind and title of every chart on a page, in the order drawn. *)
Definition chart_titles (page : list element) : list (chart_kind * string) :=
  omap (λ e, match e with
             | PlotlyChart kind title _ => Some (kind, title)
             | _ => None
             end) page.

(** The KPI counters on a page. *)
Definition metric_values (page : list element) : list (string * nat) :=
  omap (λ e, match e with
             | Metric label value => Some (label, value)
             | _ => None
             end) page.

(** The fourteen charts of the dashboard. *)
Definition dashboard_charts : list (chart_kind * string) :=
  [(Bar, "Bird Sightings by Season");
   (Bar, "Bird Activity by Hour");
   (Bar, "Species Diversity by Location Type");
   (Bar, "Top 10 Plots by Species Diversity");
   (Bar, "Top 10 Observed Species");
   (Pie, "ID Methods Used");
   (Pie, "Sex Ratio of Birds Observed");
   (Scatter, "Temperature vs Humidity by Season");
   (Bar, "Impact of Disturbance on Observations");
   (Histogram, "Distribution of Observation Distances");
   (Pie, "Flyover Observations");
   (Bar, "Top 10 Observers by Number of Observations");
   (Bar, "Watchlist Status Distribution");
   (Bar, "Top 10 AOU Codes")].

(** A chart drawn from no data. *)
Definition empty_chart (e : element) : Prop :=
  match e with
  | PlotlyChart _ _ (Aggregate t) => t = []
  | PlotlyChart _ _ (Records d) => rows d = []
  | _ => True
  end.



(** A value that can be drawn as the size of a marker: a number that is
    not negative. *)
Definition marker_size (c : cell) : Prop :=
  match c with CNum q => Qcle 0 q | _ => False end.

Global Instance marker_size_dec c : Decision (marker_size c).
Proof. destruct c; cbn [marker_size]; apply _. Defined.




(** The number of records that hold the value in the column. *)
Definition records_with (df : DataFrame) (col : string) (k : cell) : nat :=
  length (filter (λ r, cell_at r col = k) (rows df)).

(** The number of distinct values of [col] among the records that hold
    the value [k] in the column [key]. *)
Definition distinct_within (df : DataFrame) (key col : string) (k : cell)
  : nat :=
  size (list_to_set
          ((λ r, cell_at r col) <$> filter (λ r, cell_at r key = k) (rows df))
        ∖ {[CNaN]} : gset cell).

(** [top] lists [n] categories of the column [col], or all of them when
    there are fewer: each a value that some record holds in the column,
    listed once with its measure, greatest measure first, and no category
    left out has a greater measure than one that is listed. *)
Definition top_categories (n : nat) (df : DataFrame) (col : string)
    (measure : cell → nat) (top : counts) : Prop :=
  length top = n `min` size (distinct_values df col) ∧
  NoDup top.*1 ∧
  StronglySorted count_ge top ∧
  (∀ k m, (k, m) ∈ top → k ∈ distinct_values df col ∧ m = measure k) ∧
  (∀ k x, k ∈ distinct_values df col → k ∉ top.*1 → x ∈ top →
          measure k ≤ x.2).

(** ** Sample tables *)

(** The columns that the script reads. *)
Definition script_columns : list string :=
  ["Year"; "Season"; "Location_Type"; "Plot_Name"; "Scientific_Name";
   "Observer"; "Start_Time"; "Temperature"; "Humidity"; "Interval_Length";
   "Count"; "Distance"; "ID_Method"; "Sex"; "Disturbance";
   "Flyover_Observed"; "PIF_Watchlist_Status"; "AOU_Code"].

(** One record; the cells that are not given are missing. *)
Definition sighting (year : Z) (season location species observer : string)
  : gmap string cell :=
  list_to_map
    [("Year", num year); ("Season", CStr season);
     ("Location_Type", CStr location); ("Scientific_Name", CStr species);
     ("Observer", CStr observer)].

Definition robin_2020 : gmap string cell :=
  <["ID_Method" := CStr "Singing"]>
    (sighting 2020 "Spring" "Forest" "Turdus migratorius" "Ann").

Definition robin_2021 : gmap string cell :=
  <["ID_Method" := CStr "Visualization"]>
    (sighting 2021 "Fall" "Forest" "Turdus migratorius" "Bob").

Definition wren_2021 : gmap string cell :=
  sighting 2021 "Fall" "Grassland" "Troglodytes aedon" "Ann".

(** A record whose season was left empty in the file. *)
Definition jay_no_season : gmap string cell :=
  <["Season" := CNaN]>
    (sighting 2021 "Fall" "Forest" "Cyanocitta cristata" "Bob").

Definition sample_table : DataFrame :=
  mkDataFrame script_columns [robin_2020; robin_2021; wren_2021].

Definition gap_table : DataFrame :=
  mkDataFrame script_columns [robin_2020; jay_no_season].

(** The sample table as a file would give it, before the loader: numbers
    of the numeric columns still spelled as text in some records. *)
Definition raw_robin : gmap string cell :=
  <["Temperature" := CStr "12.5"]>
    (<["Humidity" := CStr "n/a"]> (<["Distance" := num 50]> robin_2020)).

Definition raw_table : DataFrame :=
  mkDataFrame script_columns [raw_robin; wren_2021].


(** Stand-ins for the text readers of pandas on the samples. *)
Definition sample_parse_number (s : string) : option Qc :=
  if decide (s = "12.5") then Some (Q2Qc (25 # 2)) else None.

Definition sample_parse_csv (content : string) : result DataFrame :=
  if decide (content = "") then Raise (ParserError "No columns to parse from file")
  else Ok raw_table.

Definition no_hours : list cell → nat → option nat := λ _ _, None.

Definition sample_files : gmap string string :=
  {[ "Cleaned_Bird_Observation_Data.csv" := "Year,Season,Location_Type" ]}.

Definition untouched : choices := mkChoices None None None.

(** A table read from a file that has no season column. *)
Definition no_season_table : DataFrame :=
  mkDataFrame (filter (λ c, c ≠ "Season") script_columns)
    [robin_2020; robin_2021; wren_2021].

(** Twelve species on twelve plots: the first seen three times, the
    second twice, the others once; the first plot has two species. *)
Definition seen (plot species : string) : gmap string cell :=
  <["Plot_Name" := CStr plot]>
    (<["AOU_Code" := CStr species]>
       (sighting 2021 "Fall" "Forest" species "Ann")).

Definition twelve_species : DataFrame :=
  mkDataFrame script_columns
    [seen "P01" "S01"; seen "P01" "S01"; seen "P01" "S01"; seen "P01" "S02";
     seen "P02" "S02"; seen "P03" "S03"; seen "P04" "S04"; seen "P05" "S05";
     seen "P06" "S06"; seen "P07" "S07"; seen "P08" "S08"; seen "P09" "S09";
     seen "P10" "S10"; seen "P11" "S11"; seen "P12" "S12"].

(** A record with its three measures, and tables of such records: one
    whose interval lengths can all be drawn, one with a negative
    interval length. *)
Definition measured (temperature humidity interval : Z) : gmap string cell :=
  <["Temperature" := num temperature]>
    (<["Humidity" := num humidity]>
       (<["Interval_Length" := num interval]> robin_2020)).


Definition negative_interval_table : DataFrame :=
  mkDataFrame script_columns [measured 20 60 5; measured 25 40 (-5)].


(** * Properties of the pipeline *)

(** A closed decidable proposition, settled by evaluation. *)
Ltac by_evaluation := apply (bool_decide_unpack _); vm_compute; exact I.

(** ** Lists *)

Lemma filter_none {A} (P : A → Prop) `{∀ x, Decision (P x)} (l : list A) :
  (∀ x, x ∈ l → ¬ P x) → filter P l = [].
Proof.
  induction l as [|x l IH]; intros HP; [done|].
  rewrite filter_cons_False by (apply HP; left).
  apply IH. intros y Hy. apply HP. by right.
Qed.

Lemma filter_all {A} (P : A → Prop) `{∀ x, Decision (P x)} (l : list A) :
  Forall P l → filter P l = l.
Proof.
  induction 1 as [|x l Hx Hl IH]; [done|].
  rewrite filter_cons_True by done. by rewrite IH.
Qed.


(** ** Series *)

Lemma elem_of_dropna (s : list cell) c : c ∈ dropna s ↔ c ≠ CNaN ∧ c ∈ s.
Proof. unfold dropna. by rewrite list_elem_of_filter. Qed.

Lemma elem_of_unique_from (seen : gset cell) s c :
  c ∈ unique_from seen s ↔ c ∈ s ∧ c ∉ seen.
Proof.
  revert seen. induction s as [|x s IH]; intros seen; cbn [unique_from].
  - split; [by intros ?%elem_of_nil | by intros [?%elem_of_nil _]].
  - case_bool_decide as Hx.
    + rewrite IH, elem_of_cons. split; [tauto|].
      intros [[->|?] ?]; [done | tauto].
    + rewrite !elem_of_cons, IH. split.
      * intros [->|[? Hc]]; [tauto|]. split; [tauto|].
        intros ?. apply Hc, elem_of_union. by right.
      * intros [[->|?] ?]; [tauto|].
        destruct (decide (c = x)) as [->|]; [tauto|]. right.
        split; [done|]. rewrite elem_of_union, elem_of_singleton. tauto.
Qed.

Lemma NoDup_unique_from (seen : gset cell) s : NoDup (unique_from seen s).
Proof.
  revert seen. induction s as [|x s IH]; intros seen; cbn [unique_from].
  - constructor.
  - case_bool_decide; [apply IH|]. constructor; [|apply IH].
    rewrite elem_of_unique_from. intros [_ Hn].
    apply Hn, elem_of_union. left. by apply elem_of_singleton.
Qed.

Lemma elem_of_unique s c : c ∈ unique s ↔ c ∈ s.
Proof.
  unfold unique. rewrite elem_of_unique_from. split; [tauto|].
  intros ?. split; [done | apply not_elem_of_empty].
Qed.

Lemma NoDup_unique s : NoDup (unique s).
Proof. apply NoDup_unique_from. Qed.

Lemma sorted_Permutation l : sorted l ≡ₚ l.
Proof. apply merge_sort_Permutation. Qed.

Lemma elem_of_sorted l c : c ∈ sorted l ↔ c ∈ l.
Proof. by rewrite sorted_Permutation. Qed.

(** ** The filter (line 79) *)


Lemma select_zip_with_filter {A} (P : A → Prop) `{∀ x, Decision (P x)}
    (l : list A) :
  select ((λ x, bool_decide (P x)) <$> l) l = filter P l.
Proof.
  induction l as [|x l IH]; [done|].
  cbn [fmap list_fmap select]. rewrite filter_cons.
  destruct (decide (P x)) as [HP|HP].
  - rewrite bool_decide_eq_true_2 by done. by rewrite IH.
  - rewrite bool_decide_eq_false_2 by done. done.
Qed.

Lemma getitem_Ok df col :
  col ∈ columns df → getitem df col = Ok ((λ r, cell_at r col) <$> rows df).
Proof. intros Hc. unfold getitem. by rewrite bool_decide_eq_true_2. Qed.

Lemma getitem_Raise df col :
  col ∉ columns df → getitem df col = Raise (KeyError col).
Proof. intros Hc. unfold getitem. by rewrite bool_decide_eq_false_2. Qed.

(** The mask of line 79, row by row. *)
Lemma filter_mask_rows (rs : list (gmap string cell)) years seasons locations :
  mask_and
    (mask_and (isin ((λ r, cell_at r "Year") <$> rs) years)
              (isin ((λ r, cell_at r "Season") <$> rs) seasons))
    (isin ((λ r, cell_at r "Location_Type") <$> rs) locations)
  = (λ r, bool_decide (selected years seasons locations r)) <$> rs.
Proof.
  unfold mask_and, isin. induction rs as [|r rs IH]; [done|].
  cbn [fmap list_fmap zip_with]. rewrite <- IH. f_equal.
  unfold selected.
  destruct (decide (cell_at r "Year" ∈ years));
    destruct (decide (cell_at r "Season" ∈ seasons));
    destruct (decide (cell_at r "Location_Type" ∈ locations));
    repeat first [rewrite bool_decide_eq_true_2 by tauto
                 |rewrite bool_decide_eq_false_2 by tauto]; done.
Qed.

Lemma has_filter_columns df :
  has_columns df filter_columns →
  "Year" ∈ columns df ∧ "Season" ∈ columns df ∧ "Location_Type" ∈ columns df.
Proof.
  unfold has_columns, filter_columns.
  intros H. inversion_clear H as [|? ? Hy H1].
  inversion_clear H1 as [|? ? Hs H2]. inversion_clear H2 as [|? ? Hl _].
  done.
Qed.

(** On a table with the three columns the filter never raises, and it is
    the list filter of the rows by [selected]. *)
Lemma filter_df_Ok df years seasons locations :
  has_columns df filter_columns →
  filter_df df years seasons locations =
    Ok (mkDataFrame (columns df)
          (filter (selected years seasons locations) (rows df))).
Proof.
  intros (Hy & Hs & Hl)%has_filter_columns. unfold filter_df.
  rewrite !getitem_Ok by done. cbn [mbind result_bind].
  rewrite filter_mask_rows. unfold getitem_mask.
  rewrite length_fmap, bool_decide_eq_true_2 by done.
  by rewrite select_zip_with_filter.
Qed.

(** C1: on a table that has the columns Year, Season and Location_Type, the
    filter returns exactly the rows whose three values each belong to the
    corresponding selection: the result is the sub-list of the rows that
    are selected, so it has at most as many rows as the table and every
    row of it passes all three selections. *)
Theorem filter_df_exact df years seasons locations :
  has_columns df filter_columns →
  ∃ fdf,
    filter_df df years seasons locations = Ok fdf ∧
    columns fdf = columns df ∧
    rows fdf = filter (selected years seasons locations) (rows df) ∧
    (∀ r, r ∈ rows fdf ↔ r ∈ rows df ∧ selected years seasons locations r) ∧
    len fdf ≤ len df ∧
    Forall (selected years seasons locations) (rows fdf).
Proof.
  intros Hcols. eexists. split; [by apply filter_df_Ok|]. cbn [columns rows].
  split_and!; [done | done | | | ].
  - intros r. rewrite list_elem_of_filter. tauto.
  - unfold len. cbn [rows]. apply length_filter.
  - apply list.Forall_forall.
    by intros r [? _]%list_elem_of_filter.
Qed.

(** C3: on a table that has the three filter columns, an empty selection
    of years, of seasons or of location types leaves no row. *)
Theorem filter_df_empty_selection df years seasons locations :
  has_columns df filter_columns →
  years = [] ∨ seasons = [] ∨ locations = [] →
  ∃ fdf,
    filter_df df years seasons locations = Ok fdf ∧
    rows fdf = [] ∧ len fdf = 0.
Proof.
  intros Hcols Hempty. eexists. split; [by apply filter_df_Ok|].
  unfold len. cbn [rows].
  assert (filter (selected years seasons locations) (rows df) = []) as ->; [|done].
  apply filter_none. unfold selected.
  destruct Hempty as [->|[->| ->]]; intros r _ (Hy & Hs & Hl);
    by first [apply elem_of_nil in Hy | apply elem_of_nil in Hs
             | apply elem_of_nil in Hl].
Qed.

(** C10: the filter is monotone in the three selections, and it keeps the
    order of the table. *)
Theorem filter_df_monotone df years seasons locations years' seasons' locations' :
  has_columns df filter_columns →
  years ⊆ years' → seasons ⊆ seasons' → locations ⊆ locations' →
  ∃ fdf fdf',
    filter_df df years seasons locations = Ok fdf ∧
    filter_df df years' seasons' locations' = Ok fdf' ∧
    (∀ r, r ∈ rows fdf → r ∈ rows fdf') ∧
    rows fdf `sublist_of` rows fdf' ∧
    rows fdf `sublist_of` rows df ∧
    rows fdf' `sublist_of` rows df.
Proof.
  intros Hcols Hy Hs Hl. eexists _, _.
  split; [by apply filter_df_Ok|]. split; [by apply filter_df_Ok|].
  cbn [rows].
  assert (∀ r, selected years seasons locations r →
               selected years' seasons' locations' r) as Himp.
  { unfold selected. intros r (? & ? & ?).
    split_and!; [by apply Hy | by apply Hs | by apply Hl]. }
  split_and!.
  - intros r. rewrite !list_elem_of_filter.
    intros [Hsel Hr]. split; [by apply Himp | done].
  - rewrite <- (list_filter_filter_l _ _ (rows df) Himp).
    apply sublist_filter.
  - apply sublist_filter.
  - apply sublist_filter.
Qed.

(** The default selection of a column holds exactly the values of the
    column that are not missing. *)
Lemma elem_of_default_selection (rs : list (gmap string cell)) col r :
  r ∈ rs →
  cell_at r col ∈ unique (dropna ((λ r, cell_at r col) <$> rs))
  ↔ cell_at r col ≠ CNaN.
Proof.
  intros Hr. rewrite elem_of_unique, elem_of_dropna.
  split; [tauto|]. intros Hc. split; [done|].
  apply list_elem_of_fmap. by exists r.
Qed.

Lemma filter_ext_elem_of {A} (P Q : A → Prop) `{∀ x, Decision (P x)}
    `{∀ x, Decision (Q x)} (l : list A) :
  (∀ x, x ∈ l → P x ↔ Q x) → filter P l = filter Q l.
Proof.
  induction l as [|x l IH]; intros Hext; [done|].
  rewrite !filter_cons.
  assert (filter P l = filter Q l) as ->.
  { apply IH. intros y Hy. apply Hext. by right. }
  pose proof (Hext x (list_elem_of_here x l)).
  destruct (decide (P x)), (decide (Q x)); tauto.
Qed.

Lemma complete_on_filter_columns r :
  complete_on filter_columns r ↔
  cell_at r "Year" ≠ CNaN ∧ cell_at r "Season" ≠ CNaN ∧
  cell_at r "Location_Type" ≠ CNaN.
Proof.
  unfold complete_on, filter_columns. split.
  - intros H. inversion_clear H as [|? ? Hy H1].
    inversion_clear H1 as [|? ? Hs H2]. inversion_clear H2 as [|? ? Hl _].
    done.
  - intros (? & ? & ?). by repeat constructor.
Qed.

(** C2, as the code has it: the default selections are the values of each
    column that are not missing, so on a table that has the three filter
    columns the default filter keeps exactly the rows with no missing
    value in them; it returns the full table when no such value is
    missing. *)
Theorem filter_df_default_selection df :
  has_columns df filter_columns →
  ∃ years seasons locations fdf,
    year_options df = Ok years ∧
    season_options df = Ok seasons ∧
    location_options df = Ok locations ∧
    filter_df df years seasons locations = Ok fdf ∧
    columns fdf = columns df ∧
    rows fdf = filter (complete_on filter_columns) (rows df) ∧
    (Forall (complete_on filter_columns) (rows df) → fdf = df).
Proof.
  intros Hcols. pose proof Hcols as (Hy & Hs & Hl)%has_filter_columns.
  unfold year_options, season_options, location_options.
  rewrite !getitem_Ok by done. cbn [mbind result_bind].
  eexists _, _, _, _.
  split; [reflexivity|]. split; [reflexivity|]. split; [reflexivity|].
  split; [by apply filter_df_Ok|]. split; [done|]. split.
  - cbn [rows]. apply filter_ext_elem_of. intros r Hr.
    rewrite complete_on_filter_columns. unfold selected.
    rewrite elem_of_sorted.
    by rewrite !elem_of_default_selection.
  - intros Hall. destruct df as [cols rs]. cbn [columns rows] in *. f_equal.
    transitivity (filter (complete_on filter_columns) rs);
      [|by apply filter_all].
    apply filter_ext_elem_of. intros r Hr.
    rewrite complete_on_filter_columns. unfold selected.
    rewrite elem_of_sorted.
    by rewrite !elem_of_default_selection.
Qed.

(** C2 as stated fails on a table with a missing season: the default
    selections do not hold the missing marker, and the row is dropped. *)
Lemma default_selection_drops_row :
  ∃ years seasons locations fdf,
    year_options gap_table = Ok years ∧
    season_options gap_table = Ok seasons ∧
    location_options gap_table = Ok locations ∧
    filter_df gap_table years seasons locations = Ok fdf ∧
    ¬ (∀ r, r ∈ rows gap_table → r ∈ rows fdf).
Proof.
  eexists _, _, _, _.
  split; [vm_compute; reflexivity|]. split; [vm_compute; reflexivity|].
  split; [vm_compute; reflexivity|]. split; [vm_compute; reflexivity|].
  intros Hall. specialize (Hall jay_no_season).
  assert (jay_no_season ∈ rows gap_table) as Hin.
  { right. left. }
  apply Hall in Hin. revert Hin. by_evaluation.
Qed.

(** ** The KPI counters (lines 85 to 87) *)

Lemma nunique_size (s : list cell) :
  nunique s = size (list_to_set s ∖ {[CNaN]} : gset cell).
Proof.
  unfold nunique.
  rewrite <- (size_list_to_set (C:=gset cell) (dropna (unique s))).
  - f_equal. apply set_eq. intros c.
    rewrite elem_of_list_to_set, elem_of_dropna, elem_of_unique.
    rewrite elem_of_difference, elem_of_list_to_set, elem_of_singleton. tauto.
  - apply list.NoDup_filter, NoDup_unique.
Qed.

(** C4: the KPI "Unique Species" is the number of distinct values of
    Scientific_Name in the filtered table and the KPI "Observers" the
    number of distinct values of Observer; the counters drawn on the page
    show these numbers. *)
Theorem kpi_distinct_counts fdf :
  has_columns fdf ["Scientific_Name"; "Observer"] →
  unique_species fdf = Ok (size (distinct_values fdf "Scientific_Name")) ∧
  observers fdf = Ok (size (distinct_values fdf "Observer")) ∧
  run (kpi_section fdf) =
    ([Metric "Total Observations" (len fdf);
      Metric "Unique Species" (size (distinct_values fdf "Scientific_Name"));
      Metric "Observers" (size (distinct_values fdf "Observer"))],
     Ok ()).
Proof.
  intros H. inversion_clear H as [|? ? Hs H1]. inversion_clear H1 as [|? ? Ho _].
  assert (unique_species fdf = Ok (size (distinct_values fdf "Scientific_Name")))
    as Hsp.
  { unfold unique_species. rewrite getitem_Ok by done.
    cbn [mbind result_bind]. by rewrite nunique_size. }
  assert (observers fdf = Ok (size (distinct_values fdf "Observer"))) as Hob.
  { unfold observers. rewrite getitem_Ok by done.
    cbn [mbind result_bind]. by rewrite nunique_size. }
  split; [done|]. split; [done|].
  unfold run, kpi_section, mbind, script_bind, draw, eval.
  by rewrite Hsp, Hob.
Qed.

(** ** Count-based aggregates *)

Lemma length_filter_or {A} (P Q : A → Prop) `{∀ x, Decision (P x)}
    `{∀ x, Decision (Q x)} (l : list A) :
  (∀ x, P x → Q x → False) →
  length (filter (λ x, P x ∨ Q x) l) =
  length (filter P l) + length (filter Q l).
Proof.
  intros Hdisj. induction l as [|x l IH]; [done|].
  rewrite !filter_cons.
  destruct (decide (P x)) as [HP|HP], (decide (Q x)) as [HQ|HQ];
    [by destruct (Hdisj x)| | |].
  - rewrite decide_True by tauto. cbn [length]. lia.
  - rewrite decide_True by tauto. cbn [length]. lia.
  - rewrite decide_False by tauto. done.
Qed.

(** The sizes of the groups of distinct labels add up to the number of
    elements whose label is one of them. *)
Lemma sum_group_sizes {A} (f : A → cell) (P : A → Prop)
    `{∀ x, Decision (P x)} (ks : list cell) (l : list A) :
  NoDup ks →
  sum_list_with (λ k, length (filter (λ x, f x = k ∧ P x) l)) ks =
  length (filter (λ x, f x ∈ ks ∧ P x) l).
Proof.
  induction 1 as [|k ks Hk Hks IH]; cbn [sum_list_with].
  - symmetry. apply length_zero_iff_nil, filter_none.
    by intros x _ [?%elem_of_nil _].
  - rewrite IH.
    rewrite <- (length_filter_or (λ x, f x = k ∧ P x) (λ x, f x ∈ ks ∧ P x) l)
      by (intros x [-> _] [? _]; done).
    f_equal. apply list_filter_iff. intros x. rewrite elem_of_cons. tauto.
Qed.

Lemma length_dropna_fmap {A} (f : A → cell) (Q : A → Prop)
    `{∀ x, Decision (Q x)} (l : list A) :
  length (dropna (f <$> filter Q l)) =
  length (filter (λ x, Q x ∧ f x ≠ CNaN) l).
Proof.
  unfold dropna. induction l as [|x l IH]; [done|].
  rewrite !filter_cons. destruct (decide (Q x)) as [HQ|HQ].
  - cbn [fmap list_fmap]. rewrite filter_cons.
    destruct (decide (f x ≠ CNaN)) as [Hf|Hf].
    + rewrite decide_True by done. cbn [length]. by rewrite <- IH.
    + rewrite decide_False by tauto. done.
  - rewrite decide_False by tauto. done.
Qed.

Lemma total_fmap {A} (f : A → cell) (g : A → nat) (l : list A) :
  total ((λ x, (f x, g x)) <$> l) = sum_list_with g l.
Proof.
  unfold total. induction l as [|x l IH]; [done|].
  cbn [fmap list_fmap sum_list_with snd]. by rewrite <- IH.
Qed.

Lemma total_groups (g : list cell → nat) (h : cell → list cell) ks :
  total ((λ kv, (kv.1, g kv.2)) <$>
           (((λ k, (k, h k)) <$> ks) : list (cell * list cell))) =
  sum_list_with (λ k, g (h k)) ks.
Proof.
  unfold total. induction ks as [|k ks IH]; [done|].
  cbn [fmap list_fmap sum_list_with snd]. by rewrite <- IH.
Qed.

Lemma sum_list_with_pointwise {A} (f g : A → nat) (l : list A) :
  (∀ x, f x = g x) → sum_list_with f l = sum_list_with g l.
Proof.
  intros Hfg. induction l as [|x l IH]; [done|].
  cbn [sum_list_with]. by rewrite Hfg, IH.
Qed.

Lemma total_sort_desc t : total (sort_desc t) = total t.
Proof.
  unfold total, sort_desc. by rewrite merge_sort_Permutation.
Qed.

Lemma complete_on_two key col r :
  complete_on [key; col] r ↔ cell_at r key ≠ CNaN ∧ cell_at r col ≠ CNaN.
Proof.
  unfold complete_on. split.
  - intros H. inversion_clear H as [|? ? Hk H1].
    inversion_clear H1 as [|? ? Hc _]. done.
  - intros [? ?]. by repeat constructor.
Qed.

Lemma complete_on_one col r :
  complete_on [col] r ↔ cell_at r col ≠ CNaN.
Proof.
  unfold complete_on. split.
  - intros H. by inversion_clear H.
  - intros ?. by repeat constructor.
Qed.

Lemma NoDup_group_labels df key : NoDup (group_labels df key).
Proof.
  unfold group_labels. rewrite sorted_Permutation. apply NoDup_unique.
Qed.

Lemma elem_of_group_labels df key r :
  r ∈ rows df → cell_at r key ∈ group_labels df key ↔ cell_at r key ≠ CNaN.
Proof.
  intros Hr. unfold group_labels. rewrite elem_of_sorted.
  by apply elem_of_default_selection.
Qed.

Lemma groupby_Ok df key col :
  key ∈ columns df → col ∈ columns df →
  groupby df key col =
    Ok ((λ k, (k, (λ r, cell_at r col) <$> group_rows df key k))
          <$> group_labels df key).
Proof.
  intros Hk Hc. unfold groupby. rewrite getitem_Ok by done.
  cbn [mbind result_bind]. by rewrite bool_decide_eq_true_2.
Qed.

(** The counts of a group-by add up to the rows that have both a label and
    a counted value. *)
Lemma groupby_count_total df key col :
  key ∈ columns df → col ∈ columns df →
  ∃ t, groupby_count df key col = Ok t ∧
       total t = counted_rows df [key; col].
Proof.
  intros Hk Hc. unfold groupby_count. rewrite groupby_Ok by done.
  cbn [mbind result_bind]. eexists. split; [done|].
  rewrite total_groups. unfold count, group_rows, counted_rows.
  rewrite (sum_list_with_pointwise _
    (λ k, length (filter (λ r, cell_at r key = k ∧ cell_at r col ≠ CNaN)
                         (rows df)))).
  - rewrite sum_group_sizes by apply NoDup_group_labels.
    f_equal. apply filter_ext_elem_of. intros r Hr.
    rewrite complete_on_two. by rewrite elem_of_group_labels.
  - intros k. apply (length_dropna_fmap (λ r, cell_at r col)).
Qed.

Lemma length_dropna_column {A} (f : A → cell) (l : list A) :
  length (dropna (f <$> l)) = length (filter (λ x, f x ≠ CNaN) l).
Proof.
  unfold dropna. induction l as [|x l IH]; [done|].
  cbn [fmap list_fmap]. rewrite !filter_cons.
  destruct (decide (f x ≠ CNaN)); cbn [length]; by rewrite IH.
Qed.

(** The counts of [value_counts] add up to the cells that are not
    missing. *)
Lemma value_counts_total (s : list cell) :
  total (value_counts s) = length (dropna s).
Proof.
  unfold value_counts. rewrite total_sort_desc.
  rewrite (total_fmap (λ k, k) (λ k, occurrences k s)).
  unfold occurrences.
  rewrite (sum_list_with_pointwise _
    (λ k, length (filter (λ x, id x = k ∧ True) s))).
  - rewrite sum_group_sizes by apply NoDup_unique.
    unfold dropna. f_equal. apply filter_ext_elem_of. intros x Hx.
    rewrite elem_of_unique, elem_of_dropna. unfold id. tauto.
  - intros k. f_equal. apply list_filter_iff. intros x. unfold id. tauto.
Qed.

Lemma column_value_counts_total df col :
  col ∈ columns df →
  ∃ t, column_value_counts df col = Ok t ∧ total t = counted_rows df [col].
Proof.
  intros Hc. unfold column_value_counts. rewrite getitem_Ok by done.
  cbn [mbind result_bind]. eexists. split; [done|].
  rewrite value_counts_total, length_dropna_column. unfold counted_rows.
  f_equal. apply list_filter_iff. intros r. by rewrite complete_on_one.
Qed.


(** ** The hour column (line 102) *)

Lemma with_start_hour_Ok hour_of fdf :
  "Start_Time" ∈ columns fdf →
  ∃ fdf',
    with_start_hour hour_of fdf = Ok fdf' ∧
    len fdf' = len fdf ∧
    "Start_Hour" ∈ columns fdf' ∧
    (∀ c, c ∈ columns fdf → c ∈ columns fdf') ∧
    (∀ c, c ∈ columns fdf' → c = "Start_Hour" ∨ c ∈ columns fdf).
Proof.
  intros Hc. unfold with_start_hour. rewrite getitem_Ok by done.
  cbn [mbind result_bind]. unfold setitem, start_hours.
  rewrite length_imap, length_fmap, bool_decide_eq_true_2 by done.
  eexists. split; [done|]. unfold len. cbn [rows columns].
  split; [|split; [|split]].
  - by rewrite length_zip_with, length_imap, length_fmap, Nat.min_id.
  - case_bool_decide; [done|]. apply elem_of_app. right. by left.
  - intros c Hin. case_bool_decide; [done|]. apply elem_of_app. by left.
  - intros c Hin. case_bool_decide; [by right|].
    apply elem_of_app in Hin as [?|Hin]; [by right|].
    left. by apply list_elem_of_singleton in Hin.
Qed.



(** ** The top-ten views *)

Global Instance count_ge_trans : Transitive count_ge.
Proof. unfold count_ge. intros x y z ? ?. lia. Qed.

Global Instance count_ge_total : Total count_ge.
Proof. unfold count_ge. intros x y. lia. Qed.

Lemma sort_desc_sorted t : StronglySorted count_ge (sort_desc t).
Proof. unfold sort_desc. apply StronglySorted_merge_sort; apply _. Qed.

Lemma sort_desc_Permutation t : sort_desc t ≡ₚ t.
Proof. apply merge_sort_Permutation. Qed.

Lemma value_counts_sorted s : StronglySorted count_ge (value_counts s).
Proof. apply sort_desc_sorted. Qed.

(** The first [n] entries of a sorted aggregate are its [n] greatest. *)
Lemma head_sorted_top n (t : counts) :
  StronglySorted count_ge t → top_of n t (head n t).
Proof.
  intros Hsorted. unfold top_of, head.
  rewrite <- (take_drop n t) in Hsorted.
  apply StronglySorted_app in Hsorted as (Hbetween & Htake & _).
  split; [apply length_take|]. split; [done|].
  exists (drop n t). split; [by rewrite take_drop|].
  intros x y Hx Hy. by apply Hbetween.
Qed.

Lemma top_of_Permutation n (agg agg' top : counts) :
  agg ≡ₚ agg' → top_of n agg top → top_of n agg' top.
Proof.
  intros Hperm (Hlen & Hsorted & rest & Hrest & Hge). split; [|split].
  - by rewrite <- Hperm.
  - done.
  - exists rest. split; [by rewrite <- Hperm | done].
Qed.

Lemma top_of_length n agg top : top_of n agg top → length top ≤ n.
Proof. intros (-> & _). lia. Qed.

Lemma labels_groups (g : list cell → nat) (h : cell → list cell) ks :
  ((λ kv, (kv.1, g kv.2)) <$>
     (((λ k, (k, h k)) <$> ks) : list (cell * list cell))).*1 = ks.
Proof.
  induction ks as [|k ks IH]; [done|].
  cbn [fmap list_fmap fst]. f_equal. exact IH.
Qed.

Lemma groupby_nunique_Ok df key col :
  key ∈ columns df → col ∈ columns df →
  ∃ t, groupby_nunique df key col = Ok t ∧ t.*1 = group_labels df key.
Proof.
  intros Hk Hc. unfold groupby_nunique. rewrite groupby_Ok by done.
  cbn [mbind result_bind]. eexists. split; [done|]. apply labels_groups.
Qed.

Lemma labels_pairs (f : cell → nat) (ks : list cell) :
  ((λ k, (k, f k)) <$> ks).*1 = ks.
Proof.
  induction ks as [|k ks IH]; [done|].
  cbn [fmap list_fmap fst]. f_equal. exact IH.
Qed.

Lemma NoDup_labels_value_counts s : NoDup (value_counts s).*1.
Proof.
  unfold value_counts. rewrite sort_desc_Permutation, labels_pairs.
  apply NoDup_unique.
Qed.

Lemma NoDup_labels_head n (t : counts) : NoDup t.*1 → NoDup (head n t).*1.
Proof.
  intros Hnd. apply (sublist_NoDup _ _ Hnd).
  apply fmap_sublist, sublist_take.
Qed.

Lemma column_value_counts_Ok df col :
  col ∈ columns df →
  column_value_counts df col = Ok (value_counts ((λ r, cell_at r col) <$> rows df)).
Proof.
  intros Hc. unfold column_value_counts. by rewrite getitem_Ok.
Qed.

(** ** The loader (lines 57 to 69) *)

Section Loader.

Context (parse_csv : string → result DataFrame).
Context (parse_number : string → option Qc).
Context (hour_of : list cell → nat → option nat).

Lemma to_numeric_cell_idemp c :
  to_numeric_cell parse_number (to_numeric_cell parse_number c) =
  to_numeric_cell parse_number c.
Proof.
  destruct c as [q|s|]; cbn [to_numeric_cell]; [done| |done].
  by destruct (parse_number s).
Qed.

Lemma cell_at_insert (r : gmap string cell) col v c :
  cell_at (<[col:=v]> r) c = if decide (c = col) then v else cell_at r c.
Proof.
  unfold cell_at. destruct (decide (c = col)) as [->|Hne].
  - by rewrite lookup_insert_eq.
  - by rewrite lookup_insert_ne.
Qed.

Lemma zip_with_fmap_same {A B C} (g : A → B → C) (h : A → B) (l : list A) :
  zip_with g l (h <$> l) = (λ x, g x (h x)) <$> l.
Proof.
  induction l as [|x l IH]; [done|].
  cbn [fmap list_fmap zip_with]. by rewrite <- IH.
Qed.

(** Writing back a column computed cell by cell from itself. *)
Lemma setitem_column df col (f : cell → cell) :
  col ∈ columns df →
  setitem df col (f <$> ((λ r, cell_at r col) <$> rows df)) =
    Ok (mkDataFrame (columns df)
          ((λ r, <[col := f (cell_at r col)]> r) <$> rows df)).
Proof.
  intros Hc. unfold setitem.
  rewrite !length_fmap, !bool_decide_eq_true_2 by done.
  rewrite <- list_fmap_compose.
  by rewrite (zip_with_fmap_same (λ r c, <[col:=c]> r)).
Qed.

Lemma coerce_columns_Ok cols df :
  coerce_columns parse_number cols df =
    Ok (mkDataFrame (columns df)
          (coerce_row parse_number (columns df) cols <$> rows df)).
Proof.
  revert df. induction cols as [|col cols IH]; intros df.
  - cbn [coerce_columns]. unfold coerce_row. cbn [foldl].
    rewrite list_fmap_id. by destruct df.
  - cbn [coerce_columns]. case_bool_decide as Hc.
    + rewrite getitem_Ok by done. cbn [mbind result_bind]. unfold to_numeric.
      rewrite setitem_column by done. cbn [mbind result_bind].
      rewrite IH. cbn [columns rows].
      rewrite <- list_fmap_compose. do 2 f_equal.
      apply list_fmap_ext. intros i r _. unfold coerce_row. cbn [foldl compose].
      by rewrite bool_decide_eq_true_2.
    + rewrite IH. do 2 f_equal. apply list_fmap_ext. intros i r _.
      unfold coerce_row. cbn [foldl]. by rewrite bool_decide_eq_false_2.
Qed.

Lemma cell_at_coerce_row present cols r c :
  cell_at (coerce_row parse_number present cols r) c =
  if decide (c ∈ cols ∧ c ∈ present)
  then to_numeric_cell parse_number (cell_at r c)
  else cell_at r c.
Proof.
  revert r. induction cols as [|col cols IH]; intros r.
  - unfold coerce_row. cbn [foldl]. rewrite decide_False; [done|].
    by intros [?%elem_of_nil _].
  - unfold coerce_row in *. cbn [foldl]. rewrite IH. clear IH.
    assert (cell_at
              (if bool_decide (col ∈ present)
               then <[col:=to_numeric_cell parse_number (cell_at r col)]> r
               else r) c
            = if decide (c = col ∧ col ∈ present)
              then to_numeric_cell parse_number (cell_at r c)
              else cell_at r c) as ->.
    { case_bool_decide.
      - rewrite cell_at_insert. destruct (decide (c = col)) as [->|].
        + by rewrite decide_True.
        + by rewrite decide_False by tauto.
      - by rewrite decide_False by tauto. }
    destruct (decide (c ∈ cols ∧ c ∈ present)) as [[Hin Hp]|Hn1];
      destruct (decide (c = col ∧ col ∈ present)) as [[Heq Hp']|Hn2];
      destruct (decide (c ∈ col :: cols ∧ c ∈ present)) as [[Hin' Hp'']|Hn3];
      rewrite ?to_numeric_cell_idemp; try done; exfalso.
    + apply Hn3. split; [by right | done].
    + apply Hn3. split; [by right | done].
    + apply Hn3. subst c. split; [left | done].
    + apply elem_of_cons in Hin' as [->|?]; tauto.
Qed.

(** C6: when the file parses to a table that has the five numeric
    columns, the load succeeds with the same columns and the same number
    of rows; in every row a cell of a numeric column that held a number
    keeps it, one that held a string holds the number read from it or the
    missing marker when none can be read, a missing cell stays missing,
    and the cells of all other columns are unchanged. *)
Theorem load_data_coerces fs content df0 :
  fs !! data_file = Some content →
  parse_csv content = Ok df0 →
  has_columns df0 numeric_cols →
  ∃ df,
    load_data parse_csv parse_number fs = Ok df ∧
    columns df = columns df0 ∧
    len df = len df0 ∧
    ∀ i r0, rows df0 !! i = Some r0 →
      ∃ r, rows df !! i = Some r ∧
        (∀ col, col ∈ numeric_cols →
           match cell_at r0 col with
           | CNum q => cell_at r col = CNum q
           | CStr s =>
               match parse_number s with
               | Some q => cell_at r col = CNum q
               | None => cell_at r col = CNaN
               end
           | CNaN => cell_at r col = CNaN
           end) ∧
        (∀ col, col ∉ numeric_cols → cell_at r col = cell_at r0 col).
Proof.
  intros Hfile Hparse Hcols. unfold load_data, read_csv.
  rewrite Hfile, Hparse. cbn [mbind result_bind]. rewrite coerce_columns_Ok.
  eexists. split; [done|]. unfold len. cbn [columns rows].
  split; [done|]. split; [by rewrite length_fmap|].
  intros i r0 Hr0. eexists. split.
  { rewrite list_lookup_fmap, Hr0. done. }
  split.
  - intros col Hcol. rewrite cell_at_coerce_row.
    rewrite decide_True.
    + destruct (cell_at r0 col) as [q|s|]; cbn [to_numeric_cell]; [done| |done].
      by destruct (parse_number s).
    + split; [done|].
      unfold has_columns in Hcols. rewrite list.Forall_forall in Hcols. auto.
  - intros col Hcol. rewrite cell_at_coerce_row.
    rewrite decide_False; [done | tauto].
Qed.

(** C7: when the file is absent, or the CSV reader rejects its content,
    [load_data] raises that error and returns no table; the script stops
    there, so the page holds the style sheet and the title only: no filter
    control, no KPI counter and no chart is drawn. *)
Theorem load_failure_is_fatal fs ui :
  (fs !! data_file = None ∨
   ∃ content e, fs !! data_file = Some content ∧ parse_csv content = Raise e) →
  ∃ e page,
    load_data parse_csv parse_number fs = Raise e ∧
    (fs !! data_file = None → e = FileNotFoundError data_file) ∧
    (∀ content, fs !! data_file = Some content → parse_csv content = Raise e) ∧
    run (app parse_csv parse_number hour_of fs ui) = (page, Raise e) ∧
    page = [Markdown page_style; Title "🦜 Bird Observation Dashboard"] ∧
    Forall (λ el, shows_data el = false) page ∧
    chart_count page = 0.
Proof.
  intros Hfail.
  assert (∃ e, load_data parse_csv parse_number fs = Raise e ∧
     (fs !! data_file = None → e = FileNotFoundError data_file) ∧
     (∀ content, fs !! data_file = Some content → parse_csv content = Raise e))
    as (e & Hload & Hnone & Hsome).
  { unfold load_data, read_csv.
    destruct Hfail as [Hnone|(content & e & Hfile & Hparse)].
    - rewrite Hnone. cbn [mbind result_bind]. eexists. split; [done|].
      split; [done|]. intros content [=].
    - rewrite Hfile, Hparse. cbn [mbind result_bind]. exists e.
      split; [done|]. split; [intros [=]|]. by intros content' [= <-]. }
  exists e. eexists. split; [done|]. split; [done|]. split; [done|].
  split.
  - unfold run, app, mbind, script_bind, draw, eval. rewrite Hload. reflexivity.
  - split; [done|]. split; [by repeat constructor | done].
Qed.

End Loader.

(** ** Which columns a view needs *)

Lemma has_columns_elem df cols c :
  has_columns df cols → c ∈ cols → c ∈ columns df.
Proof. unfold has_columns. rewrite list.Forall_forall. auto. Qed.









Lemma dropna_subset_Ok df subset :
  has_columns df subset →
  dropna_subset df subset =
    Ok (mkDataFrame (columns df) (filter (complete_on subset) (rows df))).
Proof.
  intros Hcols. unfold dropna_subset.
  rewrite (filter_none (λ c, c ∉ columns df) subset); [done|].
  intros c Hc Hn. apply Hn. by eapply has_columns_elem.
Qed.

Lemma dropna_subset_succeeds df subset :
  succeeds (dropna_subset df subset) ↔ has_columns df subset.
Proof.
  split.
  - intros [d Hd]. unfold dropna_subset in Hd. case_bool_decide as Hm; [|done].
    unfold has_columns. apply list.Forall_forall. intros c Hc.
    destruct (decide (c ∈ columns df)) as [|Hn]; [done|].
    exfalso. eapply filter_nil_not_elem_of; [exact Hm | exact Hn | done].
  - intros Hcols. rewrite dropna_subset_Ok by done. by eexists.
Qed.

(** ** Running the script step by step *)

Lemma bind_draw {B} e (k : () → script B) page :
  (draw e ≫= k) page = k () (page ++ [e]).
Proof. reflexivity. Qed.

Lemma bind_eval {A B} (r : result A) (k : A → script B) page :
  (eval r ≫= k) page =
  match r with Ok a => k a page | Raise e => (page, Raise e) end.
Proof. by destruct r. Qed.

Lemma bind_chart {B} kind title r (k : () → script B) page :
  (chart kind title r ≫= k) page =
  match r with
  | Ok t => k () (page ++ [PlotlyChart kind title (Aggregate t)])
  | Raise e => (page, Raise e)
  end.
Proof. by destruct r. Qed.

Lemma bind_records_chart {B} kind title r (k : () → script B) page :
  (records_chart kind title r ≫= k) page =
  match r with
  | Ok d => k () (page ++ [PlotlyChart kind title (Records d)])
  | Raise e => (page, Raise e)
  end.
Proof. by destruct r. Qed.

Lemma bind_scatter_chart {B} title r (k : () → script B) page :
  (scatter_chart title r ≫= k) page =
  match r with
  | Ok d =>
      match px_scatter d "Interval_Length" with
      | Ok _ => k () (page ++ [PlotlyChart Scatter title (Records d)])
      | Raise e => (page, Raise e)
      end
  | Raise e => (page, Raise e)
  end.
Proof.
  destruct r as [d|e]; [|done].
  unfold scatter_chart, mbind, script_bind, eval, draw.
  by destruct (px_scatter d "Interval_Length") as [[]|e].
Qed.

(** ** A column without any value *)

Lemma dropna_all_missing df col :
  all_missing df col → dropna ((λ r, cell_at r col) <$> rows df) = [].
Proof.
  unfold all_missing. rewrite list.Forall_forall. intros Hall.
  unfold dropna. apply filter_none.
  intros c (r & -> & Hr)%list_elem_of_fmap Hc. by apply Hc, Hall.
Qed.

Lemma value_counts_all_missing df col :
  col ∈ columns df → all_missing df col →
  column_value_counts df col = Ok [].
Proof.
  intros Hc Hall. rewrite column_value_counts_Ok by done.
  unfold value_counts. by rewrite dropna_all_missing.
Qed.

Lemma group_labels_all_missing df key :
  all_missing df key → group_labels df key = [].
Proof. intros Hall. unfold group_labels. by rewrite dropna_all_missing. Qed.


(** ** The fourteen views (lines 95 to 199) *)

Section Views.

Context (hour_of : list cell → nat → option nat).

Lemma with_start_hour_succeeds fdf :
  succeeds (with_start_hour hour_of fdf) ↔ has_columns fdf ["Start_Time"].
Proof.
  split.
  - intros [d Hd]. unfold with_start_hour in Hd.
    destruct (decide ("Start_Time" ∈ columns fdf)) as [Hk|Hk].
    + by repeat constructor.
    + rewrite getitem_Raise in Hd by done. done.
  - intros H. inversion_clear H as [|? ? Hk _].
    destruct (with_start_hour_Ok hour_of fdf Hk) as (d & Hd & _). by exists d.
Qed.

Lemma with_start_hour_inv fdf fdf' :
  with_start_hour hour_of fdf = Ok fdf' →
  "Start_Hour" ∈ columns fdf' ∧
  (∀ c, c ∈ columns fdf → c ∈ columns fdf') ∧
  (∀ c, c ∈ columns fdf' → c = "Start_Hour" ∨ c ∈ columns fdf).
Proof.
  intros Hw.
  assert (has_columns fdf ["Start_Time"]) as Hst.
  { apply with_start_hour_succeeds. by exists fdf'. }
  inversion_clear Hst as [|? ? Hk _].
  destruct (with_start_hour_Ok hour_of fdf Hk) as (d & Hd & _ & H1 & H2 & H3).
  rewrite Hw in Hd. injection Hd as ->. done.
Qed.

End Views.


(** * The properties on the sample tables *)

Lemma filter_df_exact_witness :
  has_columns sample_table filter_columns ∧
  ∃ fdf,
    filter_df sample_table [num 2021] [CStr "Fall"] [CStr "Forest"] = Ok fdf ∧
    rows fdf = [robin_2021].
Proof.
  assert (has_columns sample_table filter_columns) as H by by_evaluation.
  split; [exact H|].
  destruct (filter_df_exact sample_table [num 2021] [CStr "Fall"]
              [CStr "Forest"] H) as (fdf & Hf & _ & Hrows & _).
  exists fdf. split; [exact Hf|]. rewrite Hrows. vm_compute. reflexivity.
Defined.

Lemma filter_df_empty_selection_witness :
  has_columns sample_table filter_columns ∧
  ∃ fdf,
    filter_df sample_table [] [CStr "Fall"] [CStr "Forest"] = Ok fdf ∧
    len fdf = 0.
Proof.
  assert (has_columns sample_table filter_columns) as H by by_evaluation.
  split; [exact H|].
  destruct (filter_df_empty_selection sample_table [] [CStr "Fall"]
              [CStr "Forest"] H (or_introl eq_refl)) as (fdf & Hf & _ & Hlen).
  exists fdf. split; [exact Hf | exact Hlen].
Defined.

Lemma filter_df_monotone_witness :
  has_columns sample_table filter_columns ∧
  ∃ fdf fdf',
    filter_df sample_table [num 2021] [CStr "Fall"] [CStr "Forest"] = Ok fdf ∧
    filter_df sample_table [num 2020; num 2021] [CStr "Spring"; CStr "Fall"]
      [CStr "Forest"] = Ok fdf' ∧
    rows fdf `sublist_of` rows fdf'.
Proof.
  assert (has_columns sample_table filter_columns) as H by by_evaluation.
  split; [exact H|].
  destruct (filter_df_monotone sample_table
              [num 2021] [CStr "Fall"] [CStr "Forest"]
              [num 2020; num 2021] [CStr "Spring"; CStr "Fall"] [CStr "Forest"] H)
    as (fdf & fdf' & Hf & Hf' & _ & Hsub & _).
  - by_evaluation.
  - by_evaluation.
  - by_evaluation.
  - exists fdf, fdf'. split; [exact Hf|]. split; [exact Hf' | exact Hsub].
Defined.

Lemma filter_df_default_selection_witness :
  has_columns sample_table filter_columns ∧
  ∃ years seasons locations,
    year_options sample_table = Ok years ∧
    season_options sample_table = Ok seasons ∧
    location_options sample_table = Ok locations ∧
    filter_df sample_table years seasons locations = Ok sample_table.
Proof.
  assert (has_columns sample_table filter_columns) as H by by_evaluation.
  split; [exact H|].
  destruct (filter_df_default_selection sample_table H)
    as (ys & ss & ls & fdf & Hy & Hs & Hl & Hf & _ & _ & Hfull).
  exists ys, ss, ls. split; [exact Hy|]. split; [exact Hs|].
  split; [exact Hl|]. rewrite Hf. f_equal. apply Hfull. by_evaluation.
Defined.

Lemma kpi_distinct_counts_witness :
  has_columns sample_table ["Scientific_Name"; "Observer"] ∧
  unique_species sample_table = Ok 2 ∧ observers sample_table = Ok 2.
Proof.
  assert (has_columns sample_table ["Scientific_Name"; "Observer"]) as H
    by by_evaluation.
  split; [exact H|].
  destruct (kpi_distinct_counts sample_table H) as (Hs & Ho & _).
  split.
  - rewrite Hs. vm_compute. reflexivity.
  - rewrite Ho. vm_compute. reflexivity.
Defined.


Lemma load_data_coerces_witness :
  sample_files !! data_file = Some "Year,Season,Location_Type" ∧
  sample_parse_csv "Year,Season,Location_Type" = Ok raw_table ∧
  has_columns raw_table numeric_cols ∧
  ∃ df,
    load_data sample_parse_csv sample_parse_number sample_files = Ok df ∧
    len df = len raw_table.
Proof.
  assert (sample_files !! data_file = Some "Year,Season,Location_Type") as Hfile
    by (vm_compute; reflexivity).
  assert (sample_parse_csv "Year,Season,Location_Type" = Ok raw_table) as Hparse
    by reflexivity.
  assert (has_columns raw_table numeric_cols) as Hcols by by_evaluation.
  split; [exact Hfile|]. split; [exact Hparse|]. split; [exact Hcols|].
  destruct (load_data_coerces sample_parse_csv sample_parse_number
              sample_files _ raw_table Hfile Hparse Hcols)
    as (df & Hload & _ & Hlen & _).
  exists df. split; [exact Hload | exact Hlen].
Defined.

Lemma load_failure_is_fatal_witness :
  (∅ : gmap string string) !! data_file = None ∧
  ∃ page,
    run (app sample_parse_csv sample_parse_number no_hours ∅ untouched)
      = (page, Raise (FileNotFoundError data_file)) ∧
    chart_count page = 0.
Proof.
  assert ((∅ : gmap string string) !! data_file = None) as Hnone
    by reflexivity.
  split; [exact Hnone|].
  destruct (load_failure_is_fatal sample_parse_csv sample_parse_number
              no_hours ∅ untouched (or_introl Hnone))
    as (e & page & _ & He & _ & Hrun & _ & _ & Hcharts).
  exists page. rewrite <- (He Hnone). split; [exact Hrun | exact Hcharts].
Defined.

(** ** The pipeline evaluated on the samples *)

Example season_counts_sample :
  season_counts sample_table = Ok [(CStr "Fall", 2); (CStr "Spring", 1)].
Proof. vm_compute. reflexivity. Qed.

Example top_species_sample :
  top_species sample_table =
    Ok [(CStr "Turdus migratorius", 2); (CStr "Troglodytes aedon", 1)].
Proof. vm_compute. reflexivity. Qed.

Example unique_species_gap : unique_species gap_table = Ok 2.
Proof. vm_compute. reflexivity. Qed.

Example load_data_sample :
  (λ d, (λ r, (cell_at r "Temperature", cell_at r "Humidity",
               cell_at r "Distance", cell_at r "Season")) <$> rows d)
    <$> (match load_data sample_parse_csv sample_parse_number sample_files with
         | Ok d => Some d
         | Raise _ => None
         end)
  = Some [(CNum (Q2Qc (25 # 2)), CNaN, num 50, CStr "Spring");
          (CNaN, CNaN, CNaN, CStr "Fall")].
Proof. vm_compute. reflexivity. Qed.

Example app_sample :
  let '(page, r) :=
    run (app sample_parse_csv sample_parse_number no_hours sample_files
           untouched) in
  r = Ok () ∧ chart_count page = 14 ∧ length page = 31.
Proof. vm_compute. done. Qed.

Example app_year_2021 :
  let '(page, _) :=
    run (app sample_parse_csv sample_parse_number no_hours sample_files
           (mkChoices (Some [num 2021]) None None)) in
  page !! 6 = Some (Metric "Total Observations" 1).
Proof. vm_compute. reflexivity. Qed.

(** * Further properties of the script *)

(** ** The filter and its selections (lines 75 to 79) *)

Lemma filter_df_succeeds df years seasons locations :
  succeeds (filter_df df years seasons locations) ↔
  has_columns df filter_columns.
Proof.
  split.
  - intros [d Hd]. unfold filter_df in Hd.
    destruct (decide ("Year" ∈ columns df)) as [Hy|Hy].
    2: { rewrite (getitem_Raise df "Year") in Hd by done.
         cbn [mbind result_bind] in Hd. done. }
    rewrite (getitem_Ok df "Year") in Hd by done.
    cbn [mbind result_bind] in Hd.
    destruct (decide ("Season" ∈ columns df)) as [Hs|Hs].
    2: { rewrite (getitem_Raise df "Season") in Hd by done.
         cbn [mbind result_bind] in Hd. done. }
    rewrite (getitem_Ok df "Season") in Hd by done.
    cbn [mbind result_bind] in Hd.
    destruct (decide ("Location_Type" ∈ columns df)) as [Hl|Hl].
    2: { rewrite (getitem_Raise df "Location_Type") in Hd by done.
         cbn [mbind result_bind] in Hd. done. }
    by repeat constructor.
  - intros Hcols. rewrite filter_df_Ok by done. by eexists.
Qed.

(** Line 79 on a table that lacks a filter column: the columns are read
    in the order Year, Season, Location_Type, and the first one that is
    missing is the key of the [KeyError]. *)
Theorem filter_df_missing_column df years seasons locations key :
  filter (λ c, c ∉ columns df) filter_columns !! 0 = Some key →
  filter_df df years seasons locations = Raise (KeyError key).
Proof.
  unfold filter_columns, filter_df. rewrite !filter_cons, filter_nil.
  destruct (decide ("Year" ∈ columns df)) as [Hy|Hy].
  - rewrite (decide_False (P:="Year" ∉ columns df)) by tauto.
    rewrite (getitem_Ok df "Year") by done. cbn [mbind result_bind].
    destruct (decide ("Season" ∈ columns df)) as [Hs|Hs].
    + rewrite (decide_False (P:="Season" ∉ columns df)) by tauto.
      rewrite (getitem_Ok df "Season") by done. cbn [mbind result_bind].
      destruct (decide ("Location_Type" ∈ columns df)) as [Hl|Hl].
      * rewrite (decide_False (P:="Location_Type" ∉ columns df)) by tauto.
        intros [=].
      * rewrite (decide_True (P:="Location_Type" ∉ columns df)) by done.
        intros [= <-]. by rewrite getitem_Raise.
    + rewrite (decide_True (P:="Season" ∉ columns df)) by done.
      intros [= <-]. rewrite (getitem_Raise df "Season") by done. reflexivity.
  - rewrite (decide_True (P:="Year" ∉ columns df)) by done.
    intros [= <-]. rewrite (getitem_Raise df "Year") by done. reflexivity.
Qed.

Lemma filter_df_missing_column_witness :
  filter (λ c, c ∉ columns no_season_table) filter_columns !! 0
    = Some "Season" ∧
  filter_df no_season_table [num 2021] [CStr "Fall"] [CStr "Forest"]
    = Raise (KeyError "Season").
Proof.
  assert (filter (λ c, c ∉ columns no_season_table) filter_columns !! 0
            = Some "Season") as H by (vm_compute; reflexivity).
  split; [exact H|].
  exact (filter_df_missing_column no_season_table [num 2021] [CStr "Fall"]
           [CStr "Forest"] "Season" H).
Defined.

Lemma selected_intersection ys ss ls ys' ss' ls' r :
  selected (list_intersection ys ys') (list_intersection ss ss')
    (list_intersection ls ls') r ↔
  selected ys' ss' ls' r ∧ selected ys ss ls r.
Proof. unfold selected. rewrite !list_elem_of_intersection. tauto. Qed.

(** Filtering a filtered table again is filtering the loaded table once
    with the selections intersected; in particular filtering twice with
    the same selections changes nothing. *)
Theorem filter_df_compose df years seasons locations years' seasons' locations' fdf :
  filter_df df years seasons locations = Ok fdf →
  filter_df fdf years' seasons' locations' =
    filter_df df (list_intersection years years')
      (list_intersection seasons seasons')
      (list_intersection locations locations') ∧
  filter_df fdf years seasons locations = Ok fdf.
Proof.
  intros Hf.
  assert (has_columns df filter_columns) as Hcols.
  { apply (filter_df_succeeds df years seasons locations). by exists fdf. }
  rewrite filter_df_Ok in Hf by done. injection Hf as <-.
  rewrite !filter_df_Ok by done. cbn [columns rows]. split.
  - do 2 f_equal. rewrite list_filter_filter.
    apply list_filter_iff. intros r. by rewrite selected_intersection.
  - do 2 f_equal. rewrite list_filter_filter.
    apply list_filter_iff. intros r. tauto.
Qed.

Lemma filter_df_compose_witness :
  filter_df sample_table [num 2020; num 2021] [CStr "Fall"] [CStr "Forest"]
    = Ok (mkDataFrame script_columns [robin_2021]) ∧
  filter_df (mkDataFrame script_columns [robin_2021]) [num 2021]
      [CStr "Fall"] [CStr "Forest"]
    = Ok (mkDataFrame script_columns [robin_2021]).
Proof.
  assert (filter_df sample_table [num 2020; num 2021] [CStr "Fall"]
            [CStr "Forest"] = Ok (mkDataFrame script_columns [robin_2021]))
    as H by (vm_compute; reflexivity).
  split; [exact H|].
  destruct (filter_df_compose sample_table [num 2020; num 2021] [CStr "Fall"]
              [CStr "Forest"] [num 2021] [CStr "Fall"] [CStr "Forest"] _ H)
    as [Hc _].
  rewrite Hc. vm_compute. reflexivity.
Defined.

Global Instance cell_le_total : Total cell_le.
Proof.
  intros [p|s|] [q|t|]; unfold cell_le; cbn [cell_leb]; auto.
  - destruct (Qlt_le_dec p q) as [Hlt|Hle].
    + left. apply Is_true_true, Qle_bool_iff. by apply Qlt_le_weak.
    + right. by apply Is_true_true, Qle_bool_iff.
  - destruct (String.leb_total s t) as [H|H]; [left|right];
      by apply Is_true_true.
Qed.

Lemma unique_from_sublist (seen : gset cell) s : unique_from seen s `sublist_of` s.
Proof.
  revert seen. induction s as [|x s IH]; intros seen; cbn [unique_from].
  - constructor.
  - case_bool_decide; [by apply sublist_cons | by apply sublist_skip].
Qed.

Lemma options_sublist s : unique (dropna s) `sublist_of` s.
Proof.
  transitivity (dropna s); [apply unique_from_sublist | apply sublist_filter].
Qed.

Lemma elem_of_options (rs : list (gmap string cell)) col c :
  c ∈ unique (dropna ((λ r, cell_at r col) <$> rs)) ↔
  c ≠ CNaN ∧ ∃ r, r ∈ rs ∧ cell_at r col = c.
Proof.
  rewrite elem_of_unique, elem_of_dropna, list_elem_of_fmap.
  split; intros [? (r & ? & ?)]; (split; [done|]); by exists r.
Qed.

(** The options of the three sidebar controls (lines 75 to 77): each
    list holds every value of its column once and never the missing
    marker; the years are in ascending order, the seasons and location
    types in the order in which the table lists them. *)
Theorem selection_options df :
  has_columns df filter_columns →
  ∃ yo so lo,
    year_options df = Ok yo ∧
    season_options df = Ok so ∧
    location_options df = Ok lo ∧
    (NoDup yo ∧ Sorted cell_le yo ∧
     ∀ c, c ∈ yo ↔ c ≠ CNaN ∧ ∃ r, r ∈ rows df ∧ cell_at r "Year" = c) ∧
    (NoDup so ∧ so `sublist_of` ((λ r, cell_at r "Season") <$> rows df) ∧
     ∀ c, c ∈ so ↔ c ≠ CNaN ∧ ∃ r, r ∈ rows df ∧ cell_at r "Season" = c) ∧
    (NoDup lo ∧ lo `sublist_of` ((λ r, cell_at r "Location_Type") <$> rows df) ∧
     ∀ c, c ∈ lo ↔ c ≠ CNaN ∧ ∃ r, r ∈ rows df ∧ cell_at r "Location_Type" = c).
Proof.
  intros (Hy & Hs & Hl)%has_filter_columns.
  unfold year_options, season_options, location_options.
  rewrite !getitem_Ok by done. cbn [mbind result_bind].
  eexists _, _, _. split; [done|]. split; [done|]. split; [done|].
  split; [|split].
  - split; [|split].
    + rewrite sorted_Permutation. apply NoDup_unique.
    + apply Sorted_merge_sort, _.
    + intros c. rewrite elem_of_sorted. apply elem_of_options.
  - split; [apply NoDup_unique|]. split; [apply options_sublist|].
    intros c. apply elem_of_options.
  - split; [apply NoDup_unique|]. split; [apply options_sublist|].
    intros c. apply elem_of_options.
Qed.

Lemma selection_options_witness :
  has_columns sample_table filter_columns ∧
  year_options sample_table = Ok [num 2020; num 2021] ∧
  season_options sample_table = Ok [CStr "Spring"; CStr "Fall"].
Proof.
  assert (has_columns sample_table filter_columns) as H by by_evaluation.
  split; [exact H|].
  destruct (selection_options sample_table H)
    as (yo & so & lo & Hy & Hs & _).
  split; [rewrite Hy | rewrite Hs].
  - rewrite <- Hy. vm_compute. reflexivity.
  - rewrite <- Hs. vm_compute. reflexivity.
Defined.

Lemma options_inv df col (opts : list cell) (pre : list cell → list cell) :
  (s ← getitem df col; Ok (pre (unique (dropna s)))) = Ok opts →
  col ∈ columns df ∧
  opts = pre (unique (dropna ((λ r, cell_at r col) <$> rows df))).
Proof.
  intros H. destruct (decide (col ∈ columns df)) as [Hc|Hc].
  - rewrite getitem_Ok in H by done. cbn [mbind result_bind] in H.
    by injection H as <-.
  - rewrite getitem_Raise in H by done. cbn [mbind result_bind] in H. done.
Qed.

(** Selections taken from the options of the controls never select a
    record with a missing year, season or location type; the sightings by
    season then add up to the filtered records that have a species
    name. *)
Theorem filtered_rows_complete df yo so lo years seasons locations :
  year_options df = Ok yo →
  season_options df = Ok so →
  location_options df = Ok lo →
  years ⊆ yo → seasons ⊆ so → locations ⊆ lo →
  "Scientific_Name" ∈ columns df →
  ∃ fdf t,
    filter_df df years seasons locations = Ok fdf ∧
    Forall (complete_on filter_columns) (rows fdf) ∧
    season_counts fdf = Ok t ∧
    total t = counted_rows fdf ["Scientific_Name"].
Proof.
  intros [Hy ->]%(options_inv df "Year" yo sorted).
  intros [Hs ->]%(options_inv df "Season" so id).
  intros [Hl ->]%(options_inv df "Location_Type" lo id).
  intros Hys Hss Hls Hsci.
  assert (has_columns df filter_columns) as Hcols by by repeat constructor.
  rewrite filter_df_Ok by done.
  assert (Forall (complete_on filter_columns)
            (filter (selected years seasons locations) (rows df))) as Hcomplete.
  { apply list.Forall_forall. intros r [(Hry & Hrs & Hrl) Hr]%list_elem_of_filter.
    apply complete_on_filter_columns.
    apply Hys in Hry. apply Hss in Hrs. apply Hls in Hrl.
    rewrite elem_of_sorted in Hry. unfold id in Hrs, Hrl.
    apply elem_of_options in Hry as [? _]. apply elem_of_options in Hrs as [? _].
    apply elem_of_options in Hrl as [? _]. done. }
  destruct (groupby_count_total
              (mkDataFrame (columns df)
                 (filter (selected years seasons locations) (rows df)))
              "Season" "Scientific_Name") as (t & Ht & Htot); [done..|].
  eexists _, t. split; [done|]. cbn [rows]. split; [done|].
  unfold season_counts. rewrite Ht. split; [done|].
  rewrite Htot. unfold counted_rows. cbn [rows]. f_equal.
  apply filter_ext_elem_of. intros r Hr.
  rewrite complete_on_two, complete_on_one.
  rewrite list.Forall_forall in Hcomplete.
  apply Hcomplete, complete_on_filter_columns in Hr. tauto.
Qed.

Lemma filtered_rows_complete_witness :
  year_options gap_table = Ok [num 2020; num 2021] ∧
  ∃ fdf,
    filter_df gap_table [num 2020; num 2021] [CStr "Spring"] [CStr "Forest"]
      = Ok fdf ∧
    Forall (complete_on filter_columns) (rows fdf).
Proof.
  assert (year_options gap_table = Ok [num 2020; num 2021]) as Hy
    by (vm_compute; reflexivity).
  assert (season_options gap_table = Ok [CStr "Spring"]) as Hs
    by (vm_compute; reflexivity).
  assert (location_options gap_table = Ok [CStr "Forest"]) as Hl
    by (vm_compute; reflexivity).
  split; [exact Hy|].
  destruct (filtered_rows_complete gap_table _ _ _ [num 2020; num 2021]
              [CStr "Spring"] [CStr "Forest"] Hy Hs Hl)
    as (fdf & t & Hf & Hc & _).
  - by_evaluation.
  - by_evaluation.
  - by_evaluation.
  - by_evaluation.
  - exists fdf. split; [exact Hf | exact Hc].
Defined.

(** ** The KPI counters and the aggregates *)

Lemma nunique_le_length s : nunique s ≤ length s.
Proof.
  unfold nunique, dropna.
  etransitivity; [apply length_filter|].
  apply sublist_length, unique_from_sublist.
Qed.

Lemma nunique_mono (s s' : list cell) :
  (∀ c, c ∈ s → c ∈ s') → nunique s ≤ nunique s'.
Proof.
  intros Hsub. rewrite !nunique_size. apply subseteq_size.
  intros c. rewrite !elem_of_difference, !elem_of_list_to_set.
  intros [? ?]. split; [by apply Hsub | done].
Qed.

(** Lines 85 to 87: the number of unique species and the number of
    observers never exceed the number of observations, which never exceeds
    the size of the loaded table; narrowing the selections never raises
    any of the three counters. *)
Theorem kpi_monotone df years seasons locations years' seasons' locations' :
  has_columns df filter_columns →
  has_columns df ["Scientific_Name"; "Observer"] →
  years ⊆ years' → seasons ⊆ seasons' → locations ⊆ locations' →
  ∃ fdf fdf' n n' m m',
    filter_df df years seasons locations = Ok fdf ∧
    filter_df df years' seasons' locations' = Ok fdf' ∧
    unique_species fdf = Ok n ∧ unique_species fdf' = Ok n' ∧
    observers fdf = Ok m ∧ observers fdf' = Ok m' ∧
    n ≤ len fdf ∧ m ≤ len fdf ∧
    len fdf ≤ len fdf' ∧ n ≤ n' ∧ m ≤ m' ∧
    len fdf' ≤ len df.
Proof.
  intros Hcols Hkpi Hy Hs Hl.
  inversion_clear Hkpi as [|? ? Hsci H1]. inversion_clear H1 as [|? ? Hobs _].
  rewrite !filter_df_Ok by done.
  eexists _, _, _, _, _, _. split; [reflexivity|]. split; [reflexivity|].
  unfold unique_species, observers.
  rewrite !getitem_Ok by done. cbn [mbind result_bind rows].
  do 4 (split; [reflexivity|]).
  assert (∀ r, selected years seasons locations r →
               selected years' seasons' locations' r) as Himp.
  { unfold selected. intros r (? & ? & ?).
    split_and!; [by apply Hy | by apply Hs | by apply Hl]. }
  assert (∀ col c,
    c ∈ (λ r, cell_at r col) <$>
          filter (selected years seasons locations) (rows df) →
    c ∈ (λ r, cell_at r col) <$>
          filter (selected years' seasons' locations') (rows df)) as Hsub.
  { intros col c (r & -> & [Hsel Hr]%list_elem_of_filter)%list_elem_of_fmap.
    apply list_elem_of_fmap. exists r. split; [done|].
    apply list_elem_of_filter. auto. }
  unfold len. cbn [rows]. split_and!.
  - etransitivity; [apply nunique_le_length|]. by rewrite length_fmap.
  - etransitivity; [apply nunique_le_length|]. by rewrite length_fmap.
  - apply sublist_length.
    rewrite <- (list_filter_filter_l _ _ (rows df) Himp). apply sublist_filter.
  - apply nunique_mono, Hsub.
  - apply nunique_mono, Hsub.
  - apply length_filter.
Qed.

Lemma kpi_monotone_witness :
  has_columns sample_table filter_columns ∧
  ∃ n n',
    unique_species (mkDataFrame script_columns [robin_2021]) = Ok n ∧
    unique_species sample_table = Ok n' ∧ n ≤ n'.
Proof.
  assert (has_columns sample_table filter_columns) as H by by_evaluation.
  split; [exact H|].
  destruct (kpi_monotone sample_table
              [num 2021] [CStr "Fall"] [CStr "Forest"]
              [num 2020; num 2021] [CStr "Spring"; CStr "Fall"]
              [CStr "Forest"; CStr "Grassland"] H)
    as (fdf & fdf' & n & n' & m & m' & Hf & Hf' & Hn & Hn' & _ & _ & _ & _
        & _ & Hle & _).
  - by_evaluation.
  - by_evaluation.
  - by_evaluation.
  - by_evaluation.
  - exists n, n'.
    assert (fdf = mkDataFrame script_columns [robin_2021]) as <-.
    { assert (Ok fdf = Ok (mkDataFrame script_columns [robin_2021])) as [= ->];
        [|done].
      rewrite <- Hf. vm_compute. reflexivity. }
    assert (fdf' = sample_table) as <-.
    { assert (Ok fdf' = Ok sample_table) as [= ->]; [|done].
      rewrite <- Hf'. vm_compute. reflexivity. }
    split; [exact Hn|]. split; [exact Hn' | exact Hle].
Defined.

Lemma occurrences_column {A} (f : A → cell) (l : list A) k :
  occurrences k (f <$> l) = length (filter (λ x, f x = k) l).
Proof.
  unfold occurrences. induction l as [|x l IH]; [done|].
  cbn [fmap list_fmap]. rewrite !filter_cons.
  destruct (decide (f x = k)); cbn [length]; by rewrite IH.
Qed.

Lemma occurrences_pos s k : k ∈ s ↔ 0 < occurrences k s.
Proof.
  unfold occurrences. split.
  - intros Hk. destruct (filter (λ x, x = k) s) as [|y l] eqn:Hf.
    + exfalso. by apply (filter_nil_not_elem_of (λ x, x = k) s k Hf).
    + cbn [length]. lia.
  - intros Hpos. destruct (filter (λ x, x = k) s) as [|y l] eqn:Hf.
    + cbn [length] in Hpos. lia.
    + assert (y ∈ filter (λ x, x = k) s) as [-> ?]%list_elem_of_filter; [|done].
      rewrite Hf. left.
Qed.

(** The value counts of a column (lines 127, 132, 137, 157, 171, 180, 191
    and 196 before [head]): one entry for each value that some record
    holds in the column, none for the missing marker, the most frequent
    first, and the number of an entry is the number of records that hold
    the value, so it is never zero. *)
Theorem column_value_counts_entries df col :
  col ∈ columns df →
  ∃ t,
    column_value_counts df col = Ok t ∧
    NoDup t.*1 ∧
    StronglySorted count_ge t ∧
    ∀ k n, (k, n) ∈ t ↔
      k ≠ CNaN ∧ 0 < n ∧
      n = length (filter (λ r, cell_at r col = k) (rows df)).
Proof.
  intros Hc. rewrite column_value_counts_Ok by done.
  eexists. split; [done|]. split; [apply NoDup_labels_value_counts|].
  split; [apply value_counts_sorted|].
  intros k n. unfold value_counts. rewrite sort_desc_Permutation.
  rewrite list_elem_of_fmap. rewrite <- occurrences_column. split.
  - intros (k' & [= -> ->] & Hk').
    apply elem_of_unique, elem_of_dropna in Hk' as [Hna Hin].
    split; [done|]. split; [by apply occurrences_pos | done].
  - intros (Hna & Hpos & ->). exists k. split; [done|].
    apply elem_of_unique, elem_of_dropna. split; [done|].
    by apply occurrences_pos.
Qed.

Lemma column_value_counts_entries_witness :
  "Observer" ∈ columns sample_table ∧
  ∃ t, column_value_counts sample_table "Observer" = Ok t ∧
       (CStr "Ann", 2) ∈ t.
Proof.
  assert ("Observer" ∈ columns sample_table) as H by by_evaluation.
  split; [exact H|].
  destruct (column_value_counts_entries sample_table "Observer" H)
    as (t & Ht & _ & _ & Hentries).
  exists t. split; [exact Ht|]. apply Hentries.
  split; [discriminate|]. split; [lia | vm_compute; reflexivity].
Defined.

Lemma elem_of_groups (g : list cell → nat) (h : cell → list cell) ks k n :
  (k, n) ∈ ((λ kv, (kv.1, g kv.2)) <$>
              (((λ k, (k, h k)) <$> ks) : list (cell * list cell)))
  ↔ k ∈ ks ∧ n = g (h k).
Proof.
  rewrite list_elem_of_fmap. split.
  - intros ([k' v] & [= -> ->] & (k'' & [= -> ->] & Hin)%list_elem_of_fmap).
    done.
  - intros [Hin ->]. exists (k, h k). split; [done|].
    apply list_elem_of_fmap. by exists k.
Qed.

Lemma elem_of_group_labels_iff df key k :
  k ∈ group_labels df key ↔
  k ≠ CNaN ∧ ∃ r, r ∈ rows df ∧ cell_at r key = k.
Proof. unfold group_labels. rewrite elem_of_sorted. apply elem_of_options. Qed.

(** The group-by aggregates (lines 98, 103, 113 and 117): both reductions
    list the values of the key column once each, in ascending order and
    without the missing marker; [count] gives a group the number of its
    records that have a value in the counted column, which may be zero,
    and [nunique] the number of distinct values its records hold there. *)
Theorem groupby_entries df key col :
  key ∈ columns df → col ∈ columns df →
  ∃ tc tn,
    groupby_count df key col = Ok tc ∧
    groupby_nunique df key col = Ok tn ∧
    tc.*1 = group_labels df key ∧
    tn.*1 = group_labels df key ∧
    NoDup (group_labels df key) ∧
    Sorted cell_le (group_labels df key) ∧
    (∀ k, k ∈ group_labels df key ↔
          k ≠ CNaN ∧ ∃ r, r ∈ rows df ∧ cell_at r key = k) ∧
    (∀ k n, (k, n) ∈ tc ↔
       k ∈ group_labels df key ∧
       n = length (filter (λ r, cell_at r key = k ∧ cell_at r col ≠ CNaN)
                          (rows df))) ∧
    (∀ k n, (k, n) ∈ tn ↔
       k ∈ group_labels df key ∧
       n = size (distinct_values
                   (mkDataFrame (columns df) (group_rows df key k)) col)).
Proof.
  intros Hk Hc. unfold groupby_count, groupby_nunique.
  rewrite groupby_Ok by done. cbn [mbind result_bind].
  eexists _, _. split; [reflexivity|]. split; [reflexivity|].
  split; [apply labels_groups|]. split; [apply labels_groups|].
  split; [apply NoDup_group_labels|].
  split; [apply Sorted_merge_sort, _|].
  split; [apply elem_of_group_labels_iff|]. split.
  - intros k n. rewrite elem_of_groups. unfold count, group_rows.
    by rewrite (length_dropna_fmap (λ r, cell_at r col)).
  - intros k n. rewrite elem_of_groups. by rewrite nunique_size.
Qed.

Lemma groupby_entries_witness :
  "Location_Type" ∈ columns sample_table ∧
  "Scientific_Name" ∈ columns sample_table ∧
  loc_counts sample_table = Ok [(CStr "Forest", 1); (CStr "Grassland", 1)].
Proof.
  assert ("Location_Type" ∈ columns sample_table) as Hk by by_evaluation.
  assert ("Scientific_Name" ∈ columns sample_table) as Hc by by_evaluation.
  split; [exact Hk|]. split; [exact Hc|].
  destruct (groupby_entries sample_table "Location_Type" "Scientific_Name"
              Hk Hc) as (tc & tn & _ & Hn & _).
  unfold loc_counts. rewrite Hn. rewrite <- Hn. vm_compute. reflexivity.
Defined.

Lemma total_take_le n (t : counts) : total (take n t) ≤ total t.
Proof.
  unfold total. rewrite <- (take_drop n t) at 2.
  rewrite sum_list_with_app. lia.
Qed.

Lemma length_value_counts s :
  length (value_counts s) = size (list_to_set s ∖ {[CNaN]} : gset cell).
Proof.
  unfold value_counts, sort_desc.
  rewrite merge_sort_Permutation, length_fmap.
  rewrite <- (size_list_to_set (C:=gset cell) (unique (dropna s)))
    by apply NoDup_unique.
  f_equal. apply set_eq. intros c.
  rewrite elem_of_list_to_set, elem_of_unique, elem_of_dropna.
  rewrite elem_of_difference, elem_of_list_to_set, elem_of_singleton. tauto.
Qed.

(** The three top-ten views of value counts (lines 127, 180 and 196): the
    numbers shown add up to at most the number of records that have a
    value in the column, and to exactly that number when the column holds
    at most ten distinct values, the cut of [head(10)] then dropping
    nothing. *)
Theorem top_ten_totals fdf :
  has_columns fdf ["Scientific_Name"; "Observer"; "AOU_Code"] →
  (∃ top, top_species fdf = Ok top ∧
     total top ≤ counted_rows fdf ["Scientific_Name"] ∧
     (size (distinct_values fdf "Scientific_Name") ≤ 10 →
      total top = counted_rows fdf ["Scientific_Name"])) ∧
  (∃ top, obs_counts fdf = Ok top ∧
     total top ≤ counted_rows fdf ["Observer"] ∧
     (size (distinct_values fdf "Observer") ≤ 10 →
      total top = counted_rows fdf ["Observer"])) ∧
  (∃ top, aou_counts fdf = Ok top ∧
     total top ≤ counted_rows fdf ["AOU_Code"] ∧
     (size (distinct_values fdf "AOU_Code") ≤ 10 →
      total top = counted_rows fdf ["AOU_Code"])).
Proof.
  intros H. inversion_clear H as [|? ? Hsci H1].
  inversion_clear H1 as [|? ? Hobs H2]. inversion_clear H2 as [|? ? Haou _].
  assert (∀ col, col ∈ columns fdf →
    ∃ top, (t ← column_value_counts fdf col; Ok (head 10 t)) = Ok top ∧
      total top ≤ counted_rows fdf [col] ∧
      (size (distinct_values fdf col) ≤ 10 →
       total top = counted_rows fdf [col])) as Hvc.
  { intros col Hcol.
    destruct (column_value_counts_total fdf col Hcol) as (t & Ht & Htot).
    rewrite Ht. cbn [mbind result_bind]. eexists. split; [reflexivity|].
    rewrite <- Htot. split; [apply total_take_le|].
    intros Hsize. unfold head. rewrite take_ge; [done|].
    rewrite column_value_counts_Ok in Ht by done. injection Ht as <-.
    by rewrite length_value_counts. }
  split; [|split]; by apply Hvc.
Qed.

Lemma top_ten_totals_witness :
  has_columns sample_table ["Scientific_Name"; "Observer"; "AOU_Code"] ∧
  ∃ top, top_species sample_table = Ok top ∧ total top = 3.
Proof.
  assert (has_columns sample_table ["Scientific_Name"; "Observer"; "AOU_Code"])
    as H by by_evaluation.
  split; [exact H|].
  destruct (top_ten_totals sample_table H) as ((top & Htop & _ & Heq) & _).
  exists top. split; [exact Htop|]. rewrite Heq.
  - vm_compute. reflexivity.
  - vm_compute. lia.
Defined.

(** ** The hour column (line 102) *)

Lemma column_after_insert_other (rs : list (gmap string cell)) cs k col :
  col ≠ k →
  length cs = length rs →
  (λ r, cell_at r col) <$> zip_with (λ r c, <[k:=c]> r) rs cs =
  (λ r, cell_at r col) <$> rs.
Proof.
  intros Hne. revert cs. induction rs as [|r rs IH]; intros [|c cs] Hlen;
    try done.
  cbn [zip_with fmap list_fmap]. rewrite cell_at_insert.
  rewrite decide_False by done. f_equal. apply IH.
  cbn [length] in Hlen. lia.
Qed.

Lemma column_after_insert_same (rs : list (gmap string cell)) cs k :
  length cs = length rs →
  (λ r, cell_at r k) <$> zip_with (λ r c, <[k:=c]> r) rs cs = cs.
Proof.
  revert cs. induction rs as [|r rs IH]; intros [|c cs] Hlen; try done.
  cbn [zip_with fmap list_fmap]. rewrite cell_at_insert.
  rewrite decide_True by done. f_equal. apply IH.
  cbn [length] in Hlen. lia.
Qed.

(** Writing the hour column into the filtered table keeps the number of
    records and every other column as it was: reading any column but
    Start_Hour gives the same series, or the same [KeyError], before and
    after, so the KPI values and the value counts taken after line 102 are
    those of the filtered table. A column that was already named
    Start_Hour is overwritten. *)
Theorem hour_column_frame hour_of fdf fdf' :
  with_start_hour hour_of fdf = Ok fdf' →
  len fdf' = len fdf ∧
  getitem fdf' "Start_Hour" =
    Ok (start_hours hour_of ((λ r, cell_at r "Start_Time") <$> rows fdf)) ∧
  (∀ col, col ≠ "Start_Hour" →
     getitem fdf' col = getitem fdf col ∧
     column_value_counts fdf' col = column_value_counts fdf col) ∧
  unique_species fdf' = unique_species fdf ∧
  observers fdf' = observers fdf.
Proof.
  intros Hw.
  assert (has_columns fdf ["Start_Time"]) as Hst.
  { apply (with_start_hour_succeeds hour_of). by exists fdf'. }
  inversion_clear Hst as [|? ? Hk _].
  unfold with_start_hour in Hw. rewrite getitem_Ok in Hw by done.
  cbn [mbind result_bind] in Hw. unfold setitem in Hw.
  assert (length (start_hours hour_of ((λ r, cell_at r "Start_Time") <$> rows fdf))
          = length (rows fdf)) as Hlen.
  { unfold start_hours. by rewrite length_imap, length_fmap. }
  rewrite bool_decide_eq_true_2 in Hw by done. injection Hw as <-.
  assert (∀ col, col ≠ "Start_Hour" →
    getitem
      (mkDataFrame
         (if bool_decide ("Start_Hour" ∈ columns fdf) then columns fdf
          else columns fdf ++ ["Start_Hour"])
         (zip_with (λ r c, <["Start_Hour":=c]> r) (rows fdf)
            (start_hours hour_of ((λ r, cell_at r "Start_Time") <$> rows fdf))))
      col = getitem fdf col) as Hget.
  { intros col Hne. unfold getitem. cbn [columns rows].
    rewrite column_after_insert_other by done.
    destruct (decide (col ∈ columns fdf)) as [Hin|Hnin].
    - rewrite (bool_decide_eq_true_2 (col ∈ columns fdf)) by done.
      rewrite bool_decide_eq_true_2; [done|].
      case_bool_decide; [done|]. apply elem_of_app. by left.
    - rewrite (bool_decide_eq_false_2 (col ∈ columns fdf)) by done.
      rewrite bool_decide_eq_false_2; [done|].
      case_bool_decide; [done|].
      intros [?|Hs]%elem_of_app; [done|].
      by apply list_elem_of_singleton in Hs. }
  unfold len. cbn [rows]. split_and!.
  - by rewrite length_zip_with, Hlen, Nat.min_id.
  - unfold getitem. cbn [columns rows].
    rewrite column_after_insert_same by done.
    rewrite bool_decide_eq_true_2; [done|].
    case_bool_decide; [done|]. apply elem_of_app. right. left.
  - intros col Hne. split; [by apply Hget|].
    unfold column_value_counts. by rewrite Hget.
  - unfold unique_species. by rewrite Hget.
  - unfold observers. by rewrite Hget.
Qed.

Lemma hour_column_frame_witness :
  ∃ fdf',
    with_start_hour no_hours sample_table = Ok fdf' ∧
    len fdf' = 3 ∧
    observers fdf' = Ok 2.
Proof.
  destruct (with_start_hour no_hours sample_table) as [fdf'|e] eqn:Hw.
  - destruct (hour_column_frame no_hours sample_table fdf' Hw)
      as (Hlen & _ & _ & _ & Hobs).
    exists fdf'. split; [reflexivity|]. split; [exact Hlen|].
    rewrite Hobs. vm_compute. reflexivity.
  - exfalso. revert Hw. vm_compute. discriminate.
Defined.

(** ** The loader on any table (lines 57 to 67) *)

Lemma lookup_coerce_row parse_number present cols (r : gmap string cell) c :
  c ∉ cols ∨ c ∉ present →
  coerce_row parse_number present cols r !! c = r !! c.
Proof.
  intros Hc. revert r. induction cols as [|col cols IH]; intros r; [done|].
  unfold coerce_row in *. cbn [foldl]. rewrite IH.
  - case_bool_decide as Hp; [|done].
    apply lookup_insert_ne. intros ->. destruct Hc as [Hc|Hc]; [|done].
    apply Hc. left.
  - destruct Hc as [Hc|Hc]; [left | by right].
    intros ?. apply Hc. by right.
Qed.

Lemma to_numeric_cell_no_text parse_number c s :
  to_numeric_cell parse_number c ≠ CStr s.
Proof.
  destruct c as [q|t|]; cbn [to_numeric_cell]; [done| |done].
  by destruct (parse_number t).
Qed.

(** Once the file is read as a table, [load_data] returns, whatever
    columns the table has: the table keeps its columns and its number of
    rows, a numeric column that the table does not have is skipped and not
    created, and outside the numeric columns every row is the row that was
    read. *)
Theorem load_data_keeps_shape
    (parse_csv : string → result DataFrame) (parse_number : string → option Qc)
    fs content df0 :
  fs !! data_file = Some content →
  parse_csv content = Ok df0 →
  ∃ df,
    load_data parse_csv parse_number fs = Ok df ∧
    columns df = columns df0 ∧
    len df = len df0 ∧
    ∀ i r0, rows df0 !! i = Some r0 →
      ∃ r, rows df !! i = Some r ∧
           ∀ col, col ∉ numeric_cols ∨ col ∉ columns df0 →
                  r !! col = r0 !! col.
Proof.
  intros Hfile Hparse. unfold load_data, read_csv.
  rewrite Hfile, Hparse. cbn [mbind result_bind]. rewrite coerce_columns_Ok.
  eexists. split; [reflexivity|]. unfold len. cbn [columns rows].
  split; [done|]. split; [by rewrite length_fmap|].
  intros i r0 Hr0. eexists. split.
  { by rewrite list_lookup_fmap, Hr0. }
  intros col Hcol. by apply lookup_coerce_row.
Qed.

Lemma load_data_keeps_shape_witness :
  sample_files !! data_file = Some "Year,Season,Location_Type" ∧
  ∃ df,
    load_data sample_parse_csv sample_parse_number sample_files = Ok df ∧
    columns df = script_columns.
Proof.
  assert (sample_files !! data_file = Some "Year,Season,Location_Type") as Hfile
    by (vm_compute; reflexivity).
  split; [exact Hfile|].
  destruct (load_data_keeps_shape sample_parse_csv sample_parse_number
              sample_files _ raw_table Hfile eq_refl)
    as (df & Hload & Hcols & _).
  exists df. split; [exact Hload | exact Hcols].
Defined.

(** After the load no cell of a numeric column holds text: each is a
    number or the missing marker. *)
Theorem load_data_numeric_cells
    (parse_csv : string → result DataFrame) (parse_number : string → option Qc)
    fs df r col s :
  load_data parse_csv parse_number fs = Ok df →
  r ∈ rows df →
  col ∈ numeric_cols →
  col ∈ columns df →
  cell_at r col ≠ CStr s.
Proof.
  unfold load_data. destruct (read_csv parse_csv fs data_file) as [df0|e];
    cbn [mbind result_bind]; [|done].
  rewrite coerce_columns_Ok. intros [= <-]. cbn [rows columns].
  intros (r0 & -> & _)%list_elem_of_fmap Hnum Hcol.
  rewrite (cell_at_coerce_row parse_csv), decide_True by done.
  apply to_numeric_cell_no_text.
Qed.

Lemma load_data_numeric_cells_witness :
  ∃ df r,
    load_data sample_parse_csv sample_parse_number sample_files = Ok df ∧
    r ∈ rows df ∧
    cell_at r "Humidity" ≠ CStr "n/a".
Proof.
  assert (load_data sample_parse_csv sample_parse_number sample_files =
          Ok (mkDataFrame script_columns
                (coerce_row sample_parse_number script_columns numeric_cols
                   <$> rows raw_table))) as Hload.
  { unfold load_data, read_csv.
    assert (sample_files !! data_file = Some "Year,Season,Location_Type")
      as -> by (vm_compute; reflexivity).
    cbn [mbind result_bind]. apply coerce_columns_Ok. }
  eexists _, _. split; [exact Hload|].
  assert (coerce_row sample_parse_number script_columns numeric_cols raw_robin
          ∈ rows (mkDataFrame script_columns
                    (coerce_row sample_parse_number script_columns numeric_cols
                       <$> rows raw_table))) as Hin by left.
  split; [exact Hin|].
  apply (load_data_numeric_cells sample_parse_csv sample_parse_number
           sample_files _ _ "Humidity" "n/a" Hload Hin); by_evaluation.
Defined.

(** ** The whole run (lines 52 to 201) *)









Lemma bind_multiselect {B} label options dflt chosen
    (k : list cell → script B) page :
  (multiselect label options dflt chosen ≫= k) page =
  k (default dflt chosen) (page ++ [Multiselect label options dflt]).
Proof. reflexivity. Qed.





(** A loaded table that lacks a filter column: the script stops in the
    sidebar, at the first control whose column is missing, with the
    [KeyError] of that column; no KPI counter and no chart is drawn. *)
Theorem app_missing_filter_column
    (parse_csv : string → result DataFrame) (parse_number : string → option Qc)
    (hour_of : list cell → nat → option nat) fs ui df key :
  load_data parse_csv parse_number fs = Ok df →
  filter (λ c, c ∉ columns df) filter_columns !! 0 = Some key →
  ∃ page,
    run (app parse_csv parse_number hour_of fs ui)
      = (page, Raise (KeyError key)) ∧
    metric_values page = [] ∧
    chart_count page = 0.
Proof.
  intros Hload. unfold filter_columns. rewrite !filter_cons, filter_nil.
  unfold run, app. rewrite !bind_draw, bind_eval, Hload, bind_draw, bind_eval.
  unfold year_options, season_options, location_options.
  destruct (decide ("Year" ∈ columns df)) as [Hy|Hy].
  - rewrite (decide_False (P:="Year" ∉ columns df)) by tauto.
    rewrite (getitem_Ok df "Year") by done. cbn [mbind result_bind].
    rewrite bind_multiselect, bind_eval.
    destruct (decide ("Season" ∈ columns df)) as [Hs|Hs].
    + rewrite (decide_False (P:="Season" ∉ columns df)) by tauto.
      rewrite (getitem_Ok df "Season") by done. cbn [mbind result_bind].
      rewrite bind_multiselect, bind_eval.
      destruct (decide ("Location_Type" ∈ columns df)) as [Hl|Hl].
      * rewrite (decide_False (P:="Location_Type" ∉ columns df)) by tauto.
        intros [=].
      * rewrite (decide_True (P:="Location_Type" ∉ columns df)) by done.
        intros [= <-]. rewrite (getitem_Raise df "Location_Type") by done.
        cbn [mbind result_bind]. eexists. split; [reflexivity|].
        split; reflexivity.
    + rewrite (decide_True (P:="Season" ∉ columns df)) by done.
      intros [= <-]. rewrite (getitem_Raise df "Season") by done.
      cbn [mbind result_bind]. eexists. split; [reflexivity|].
      split; reflexivity.
  - rewrite (decide_True (P:="Year" ∉ columns df)) by done.
    intros [= <-]. rewrite (getitem_Raise df "Year") by done.
    cbn [mbind result_bind]. eexists. split; [reflexivity|].
    split; reflexivity.
Qed.

Lemma rows_empty_all_missing df col : rows df = [] → all_missing df col.
Proof. unfold all_missing. intros ->. constructor. Qed.

Lemma groupby_all_missing df key col :
  key ∈ columns df → col ∈ columns df → all_missing df key →
  groupby_count df key col = Ok [] ∧ groupby_nunique df key col = Ok [].
Proof.
  intros Hk Hc Hall. unfold groupby_count, groupby_nunique.
  rewrite groupby_Ok by done. cbn [mbind result_bind].
  by rewrite group_labels_all_missing.
Qed.

Lemma dropna_subset_empty df subset :
  has_columns df subset → rows df = [] →
  dropna_subset df subset = Ok (mkDataFrame (columns df) []).
Proof.
  intros Hcols Hrows. rewrite dropna_subset_Ok by done. by rewrite Hrows.
Qed.

(** When the filter selects no record (an empty selection, for one), the
    KPI counters are zero and the fourteen charts are all drawn, each from
    an empty aggregate or an empty set of records. *)
Theorem views_on_empty_table hour_of fdf :
  has_columns fdf view_columns →
  rows fdf = [] →
  unique_species fdf = Ok 0 ∧
  observers fdf = Ok 0 ∧
  ∃ page,
    run (views hour_of fdf) = (page, Ok ()) ∧
    chart_count page = 14 ∧
    Forall empty_chart page.
Proof.
  intros Hcols Hrows.
  assert (∀ c, c ∈ view_columns → c ∈ columns fdf) as Hin
    by (intros c; apply has_columns_elem, Hcols).
  destruct (with_start_hour_Ok hour_of fdf)
    as (fdf' & Hw & Hlen & Hsh & Hincl & _); [apply Hin; by_evaluation|].
  assert (rows fdf' = []) as Hrows'.
  { apply length_zero_iff_nil. unfold len in Hlen. by rewrite Hlen, Hrows. }
  assert (∀ c, c ∈ view_columns → c ∈ columns fdf') as Hin'
    by (intros c Hc; by apply Hincl, Hin).
  assert (∀ col, all_missing fdf col) as Hall
    by (intros col; by apply rows_empty_all_missing).
  assert (∀ col, all_missing fdf' col) as Hall'
    by (intros col; by apply rows_empty_all_missing).
  assert (∀ col, col ∈ view_columns → column_value_counts fdf' col = Ok [])
    as Hvc by (intros col Hc; apply value_counts_all_missing; auto).
  assert (∀ subset, has_columns fdf' subset →
            dropna_subset fdf' subset = Ok (mkDataFrame (columns fdf') []))
    as Hdrop by (intros subset Hs; by apply dropna_subset_empty).
  split; [|split].
  - unfold unique_species. rewrite getitem_Ok by (apply Hin; by_evaluation).
    by rewrite Hrows.
  - unfold observers. rewrite getitem_Ok by (apply Hin; by_evaluation).
    by rewrite Hrows.
  - assert (season_counts fdf = Ok []) as H1.
    { apply groupby_all_missing; [apply Hin; by_evaluation..|apply Hall]. }
    assert (hour_counts fdf' = Ok []) as H2.
    { apply groupby_all_missing;
        [exact Hsh | apply Hin'; by_evaluation | apply Hall']. }
    assert (loc_counts fdf' = Ok []) as H3.
    { apply groupby_all_missing; [apply Hin'; by_evaluation..|apply Hall']. }
    assert (plot_counts fdf' = Ok []) as H4.
    { unfold plot_counts.
      destruct (groupby_all_missing fdf' "Plot_Name" "Scientific_Name")
        as [_ ->]; [apply Hin'; by_evaluation..|apply Hall'|done]. }
    assert (top_species fdf' = Ok []) as H5.
    { unfold top_species. by rewrite Hvc by by_evaluation. }
    assert (id_method_counts fdf' = Ok []) as H6
      by (apply Hvc; by_evaluation).
    assert (sex_counts fdf' = Ok []) as H7 by (apply Hvc; by_evaluation).
    assert (scatter_records fdf' = Ok (mkDataFrame (columns fdf') [])) as H8.
    { apply Hdrop. repeat constructor; apply Hin'; by_evaluation. }
    assert (disturb_counts fdf' = Ok []) as H9 by (apply Hvc; by_evaluation).
    assert (histogram_records fdf' = Ok (mkDataFrame (columns fdf') []))
      as H10.
    { apply Hdrop. repeat constructor; apply Hin'; by_evaluation. }
    assert (flyover_counts fdf' = Ok []) as H11
      by (apply Hvc; by_evaluation).
    assert (obs_counts fdf' = Ok []) as H12.
    { unfold obs_counts. by rewrite Hvc by by_evaluation. }
    assert (watchlist_counts fdf' = Ok []) as H13
      by (apply Hvc; by_evaluation).
    assert (aou_counts fdf' = Ok []) as H14.
    { unfold aou_counts. by rewrite Hvc by by_evaluation. }
    unfold run, views.
    rewrite bind_draw, bind_chart, H1, bind_eval, Hw, bind_chart, H2.
    rewrite bind_draw, bind_chart, H3, bind_chart, H4.
    rewrite bind_draw, bind_chart, H5, bind_chart, H6, bind_chart, H7.
    rewrite bind_draw, bind_scatter_chart, H8.
    change (px_scatter (mkDataFrame (columns fdf') []) "Interval_Length")
      with (Ok () : result ()).
    rewrite bind_chart, H9.
    rewrite bind_draw, bind_records_chart, H10, bind_chart, H11.
    rewrite bind_draw, bind_chart, H12.
    rewrite bind_draw, bind_chart, H13, bind_chart, H14.
    eexists. split; [reflexivity|]. split; [reflexivity|].
    repeat constructor.
Qed.

Lemma views_on_empty_table_witness :
  has_columns (mkDataFrame script_columns []) view_columns ∧
  ∃ page,
    run (views no_hours (mkDataFrame script_columns [])) = (page, Ok ()) ∧
    chart_count page = 14.
Proof.
  assert (has_columns (mkDataFrame script_columns []) view_columns) as H
    by by_evaluation.
  split; [exact H|].
  destruct (views_on_empty_table no_hours (mkDataFrame script_columns []) H
              eq_refl) as (_ & _ & page & Hrun & Hn & _).
  exists page. split; [exact Hrun | exact Hn].
Defined.

Lemma app_missing_filter_column_witness :
  ∃ page,
    run (app (λ _, Ok no_season_table) sample_parse_number no_hours
           sample_files untouched)
      = (page, Raise (KeyError "Season")) ∧
    chart_count page = 0.
Proof.
  assert (load_data (λ _, Ok no_season_table) sample_parse_number sample_files =
          Ok (mkDataFrame (columns no_season_table)
                (coerce_row sample_parse_number (columns no_season_table)
                   numeric_cols <$> rows no_season_table))) as Hload.
  { unfold load_data, read_csv.
    assert (sample_files !! data_file = Some "Year,Season,Location_Type")
      as -> by (vm_compute; reflexivity).
    cbn [mbind result_bind]. apply coerce_columns_Ok. }
  destruct (app_missing_filter_column (λ _, Ok no_season_table)
              sample_parse_number no_hours sample_files untouched _ "Season"
              Hload) as (page & Hrun & _ & Hn).
  - vm_compute. reflexivity.
  - exists page. split; [exact Hrun | exact Hn].
Defined.



(** ** The records behind the scatter chart and the histogram *)

Lemma elem_of_zip_with_insert (rs : list (gmap string cell)) cs k r :
  r ∈ zip_with (λ r c, <[k:=c]> r) rs cs →
  ∃ r1 c, r1 ∈ rs ∧ r = <[k:=c]> r1.
Proof.
  revert cs. induction rs as [|r1 rs IH]; intros [|c cs]; cbn [zip_with];
    try by intros ?%elem_of_nil.
  intros [->|Hin]%elem_of_cons.
  - exists r1, c. split; [left | done].
  - destruct (IH cs Hin) as (r2 & c2 & Hr2 & ->).
    exists r2, c2. split; [by right | done].
Qed.

Lemma with_start_hour_rows hour_of fdf fdf' r :
  with_start_hour hour_of fdf = Ok fdf' →
  r ∈ rows fdf' →
  ∃ r1, r1 ∈ rows fdf ∧
        ∀ col, col ≠ "Start_Hour" → cell_at r col = cell_at r1 col.
Proof.
  intros Hw Hr. unfold with_start_hour in Hw.
  destruct (getitem fdf "Start_Time") as [s|e]; cbn [mbind result_bind] in Hw;
    [|done].
  unfold setitem in Hw. case_bool_decide; [|done]. injection Hw as <-.
  cbn [rows] in Hr.
  apply elem_of_zip_with_insert in Hr as (r1 & c & Hr1 & ->).
  exists r1. split; [done|]. intros col Hne.
  rewrite cell_at_insert. by rewrite decide_False.
Qed.

(** Every record handed to the scatter chart (line 149) holds a number
    as temperature, as humidity and as interval length, and every record
    handed to the histogram (line 168) a number as distance: the loader
    has turned text into a number or into the missing marker, and
    [dropna] removes the records where the marker is left. *)
Theorem chart_records_hold_numbers
    (parse_csv : string → result DataFrame) (parse_number : string → option Qc)
    (hour_of : list cell → nat → option nat)
    fs df years seasons locations fdf fdf' :
  load_data parse_csv parse_number fs = Ok df →
  filter_df df years seasons locations = Ok fdf →
  with_start_hour hour_of fdf = Ok fdf' →
  (∀ d r col, scatter_records fdf' = Ok d → r ∈ rows d →
     col ∈ ["Temperature"; "Humidity"; "Interval_Length"] →
     ∃ q, cell_at r col = CNum q) ∧
  (∀ d r, histogram_records fdf' = Ok d → r ∈ rows d →
     ∃ q, cell_at r "Distance" = CNum q).
Proof.
  intros Hload Hf Hw.
  assert (∀ subset d r col,
    subset ⊆ numeric_cols → "Start_Hour" ∉ subset →
    dropna_subset fdf' subset = Ok d → r ∈ rows d → col ∈ subset →
    ∃ q, cell_at r col = CNum q) as Hgen.
  { intros subset d r col Hnum Hnh Hd Hr Hcol.
    assert (has_columns fdf' subset) as Hcols.
    { apply dropna_subset_succeeds. by exists d. }
    rewrite dropna_subset_Ok in Hd by done. injection Hd as <-.
    cbn [rows] in Hr. apply list_elem_of_filter in Hr as [Hcomplete Hr].
    unfold complete_on in Hcomplete. rewrite list.Forall_forall in Hcomplete.
    specialize (Hcomplete col Hcol).
    assert (col ≠ "Start_Hour") as Hne by (intros ->; done).
    destruct (with_start_hour_rows hour_of fdf fdf' r Hw Hr) as (r1 & Hr1 & Heq).
    rewrite (Heq col Hne). rewrite (Heq col Hne) in Hcomplete.
    destruct (with_start_hour_inv hour_of fdf fdf' Hw) as (_ & _ & Hback).
    assert (col ∈ columns fdf) as Hcf.
    { destruct (Hback col) as [?|?];
        [by eapply has_columns_elem | done | done]. }
    assert (has_columns df filter_columns) as Hfc.
    { apply (filter_df_succeeds df years seasons locations). by exists fdf. }
    rewrite filter_df_Ok in Hf by done. injection Hf as <-.
    cbn [rows columns] in Hr1, Hcf.
    apply list_elem_of_filter in Hr1 as [_ Hr1].
    unfold load_data in Hload.
    destruct (read_csv parse_csv fs data_file) as [df0|e];
      cbn [mbind result_bind] in Hload; [|done].
    rewrite coerce_columns_Ok in Hload. injection Hload as <-.
    cbn [rows columns] in Hr1, Hcf.
    apply list_elem_of_fmap in Hr1 as (r0 & -> & _).
    rewrite (cell_at_coerce_row parse_csv).
    rewrite (cell_at_coerce_row parse_csv) in Hcomplete.
    assert (col ∈ numeric_cols ∧ col ∈ columns df0) as Hboth
      by (split; [by apply Hnum | done]).
    rewrite decide_True by done. rewrite decide_True in Hcomplete by done.
    destruct (to_numeric_cell parse_number (cell_at r0 col)) as [q|s|] eqn:Hc.
    - by exists q.
    - by destruct (to_numeric_cell_no_text parse_number (cell_at r0 col) s).
    - done. }
  split.
  - intros d r col Hd Hr Hcol.
    apply (Hgen ["Temperature"; "Humidity"; "Interval_Length"] d r col);
      [by_evaluation | by_evaluation | done..].
  - intros d r Hd Hr.
    apply (Hgen ["Distance"] d r "Distance");
      [by_evaluation | by_evaluation | done | done | left].
Qed.

Lemma chart_records_hold_numbers_witness :
  ∃ df fdf fdf',
    load_data sample_parse_csv sample_parse_number sample_files = Ok df ∧
    filter_df df [num 2020] [CStr "Spring"] [CStr "Forest"] = Ok fdf ∧
    with_start_hour no_hours fdf = Ok fdf' ∧
    ∀ d r, histogram_records fdf' = Ok d → r ∈ rows d →
           ∃ q, cell_at r "Distance" = CNum q.
Proof.
  pose (df := mkDataFrame script_columns
                (coerce_row sample_parse_number script_columns numeric_cols
                   <$> rows raw_table)).
  assert (load_data sample_parse_csv sample_parse_number sample_files = Ok df)
    as Hload.
  { unfold load_data, read_csv.
    assert (sample_files !! data_file = Some "Year,Season,Location_Type")
      as -> by (vm_compute; reflexivity).
    cbn [mbind result_bind]. apply coerce_columns_Ok. }
  pose (fdf := mkDataFrame (columns df)
                 (filter (selected [num 2020] [CStr "Spring"] [CStr "Forest"])
                    (rows df))).
  assert (filter_df df [num 2020] [CStr "Spring"] [CStr "Forest"] = Ok fdf)
    as Hf by (apply filter_df_Ok; by_evaluation).
  destruct (with_start_hour_Ok no_hours fdf) as (fdf' & Hw & _);
    [by_evaluation|].
  exists df, fdf, fdf'. split; [exact Hload|]. split; [exact Hf|].
  split; [exact Hw|].
  exact (proj2 (chart_records_hold_numbers sample_parse_csv sample_parse_number
                  no_hours sample_files df [num 2020] [CStr "Spring"]
                  [CStr "Forest"] fdf fdf' Hload Hf Hw)).
Defined.

(** * The views and the records they are drawn from *)

(** ** The top-ten views (lines 117, 127, 180 and 196) *)

Lemma elem_of_distinct_values df col k :
  k ∈ distinct_values df col ↔
  k ≠ CNaN ∧ ∃ r, r ∈ rows df ∧ cell_at r col = k.
Proof.
  unfold distinct_values.
  rewrite elem_of_difference, elem_of_list_to_set, list_elem_of_fmap.
  rewrite elem_of_singleton. split.
  - intros [(r & -> & Hr) Hna]. split; [done|]. by exists r.
  - intros [Hna (r & Hr & <-)]. split; [by exists r | done].
Qed.

(** The first [n] entries of a sorted aggregate that lists every
    category of a column once, with its measure. *)
Lemma top_categories_head n df col measure (t : counts) :
  StronglySorted count_ge t →
  NoDup t.*1 →
  (∀ k m, (k, m) ∈ t ↔ k ∈ distinct_values df col ∧ m = measure k) →
  top_categories n df col measure (head n t).
Proof.
  intros Hsorted Hnd Hentries.
  destruct (head_sorted_top n t Hsorted) as (Hlen & Htop & rest & Hperm & Hge).
  assert (length t = size (distinct_values df col)) as Hsize.
  { rewrite <- (length_fmap fst t).
    rewrite <- (size_list_to_set (C:=gset cell) t.*1) by done.
    f_equal. apply set_eq. intros k.
    rewrite elem_of_list_to_set, list_elem_of_fmap. split.
    - intros ([k' m] & -> & Hin). by apply Hentries in Hin as [? _].
    - intros Hk. exists (k, measure k). split; [done|]. by apply Hentries. }
  split; [by rewrite Hlen, Hsize|].
  split; [by apply NoDup_labels_head|].
  split; [done|]. split.
  - intros k m Hin. apply Hentries. rewrite Hperm. apply elem_of_app. by left.
  - intros k x Hk Hnot Hx.
    assert ((k, measure k) ∈ t) as Hin by by apply Hentries.
    rewrite Hperm in Hin. apply elem_of_app in Hin as [Hin|Hin].
    + destruct Hnot. apply list_elem_of_fmap. by exists (k, measure k).
    + apply (Hge x (k, measure k) Hx Hin).
Qed.

Lemma value_counts_records df col k m :
  (k, m) ∈ value_counts ((λ r, cell_at r col) <$> rows df) ↔
  k ∈ distinct_values df col ∧ m = records_with df col k.
Proof.
  unfold value_counts, records_with.
  rewrite sort_desc_Permutation, list_elem_of_fmap, <- occurrences_column.
  rewrite elem_of_distinct_values. split.
  - intros (k' & [= -> ->] & Hk').
    apply elem_of_unique, elem_of_dropna in Hk' as [Hna Hin].
    split; [|done]. split; [done|].
    apply list_elem_of_fmap in Hin as (r & -> & Hr). by exists r.
  - intros ((Hna & r & Hr & <-) & ->). exists (cell_at r col).
    split; [done|]. apply elem_of_unique, elem_of_dropna. split; [done|].
    apply list_elem_of_fmap. by exists r.
Qed.

Lemma groupby_nunique_records df key col :
  key ∈ columns df → col ∈ columns df →
  ∃ t, groupby_nunique df key col = Ok t ∧
       NoDup t.*1 ∧
       ∀ k m, (k, m) ∈ t ↔
              k ∈ distinct_values df key ∧ m = distinct_within df key col k.
Proof.
  intros Hk Hc. unfold groupby_nunique. rewrite groupby_Ok by done.
  cbn [mbind result_bind]. eexists. split; [reflexivity|]. split.
  - rewrite labels_groups. apply NoDup_group_labels.
  - intros k m. rewrite elem_of_groups, elem_of_group_labels_iff.
    rewrite elem_of_distinct_values, nunique_size. done.
Qed.

(** A top-ten view of value counts: [head(10)] of the counts of a
    column. *)
Lemma top_value_counts_categories fdf col :
  col ∈ columns fdf →
  ∃ top,
    (t ← column_value_counts fdf col; Ok (head 10 t)) = Ok top ∧
    length top ≤ 10 ∧
    top_categories 10 fdf col (records_with fdf col) top.
Proof.
  intros Hcol. rewrite column_value_counts_Ok by done.
  cbn [mbind result_bind]. eexists. split; [reflexivity|].
  assert (top_categories 10 fdf col (records_with fdf col)
            (head 10 (value_counts ((λ r, cell_at r col) <$> rows fdf))))
    as Htop.
  { apply top_categories_head.
    - apply value_counts_sorted.
    - apply NoDup_labels_value_counts.
    - apply value_counts_records. }
  split; [|exact Htop]. destruct Htop as [-> _]. lia.
Qed.

(** C9: each of the four top-ten views returns at most ten categories:
    ten of the plots, species, observers or AOU codes that the records
    hold, or all of them when there are fewer than ten, each listed once
    with its measure (the number of distinct species recorded on the
    plot, or the number of records of the species, observer or code), in
    descending order of the measure; no category that is left out has a
    greater measure than one that is listed. *)
Theorem top_ten_views fdf :
  has_columns fdf ["Plot_Name"; "Scientific_Name"; "Observer"; "AOU_Code"] →
  (∃ top,
     plot_counts fdf = Ok top ∧
     length top ≤ 10 ∧
     top_categories 10 fdf "Plot_Name"
       (distinct_within fdf "Plot_Name" "Scientific_Name") top) ∧
  (∃ top,
     top_species fdf = Ok top ∧
     length top ≤ 10 ∧
     top_categories 10 fdf "Scientific_Name"
       (records_with fdf "Scientific_Name") top) ∧
  (∃ top,
     obs_counts fdf = Ok top ∧
     length top ≤ 10 ∧
     top_categories 10 fdf "Observer" (records_with fdf "Observer") top) ∧
  (∃ top,
     aou_counts fdf = Ok top ∧
     length top ≤ 10 ∧
     top_categories 10 fdf "AOU_Code" (records_with fdf "AOU_Code") top).
Proof.
  intros H. inversion_clear H as [|? ? Hplot H1].
  inversion_clear H1 as [|? ? Hsci H2]. inversion_clear H2 as [|? ? Hobs H3].
  inversion_clear H3 as [|? ? Haou _].
  split; [|split; [|split]]; [|by apply top_value_counts_categories..].
  destruct (groupby_nunique_records fdf "Plot_Name" "Scientific_Name")
    as (agg & Hagg & Hnd & Hentries); [done..|].
  unfold plot_counts. rewrite Hagg. cbn [mbind result_bind].
  eexists. split; [reflexivity|].
  assert (top_categories 10 fdf "Plot_Name"
            (distinct_within fdf "Plot_Name" "Scientific_Name")
            (head 10 (sort_desc agg))) as Htop.
  { apply top_categories_head.
    - apply sort_desc_sorted.
    - by rewrite sort_desc_Permutation.
    - intros k m. rewrite sort_desc_Permutation. apply Hentries. }
  split; [|exact Htop]. destruct Htop as [-> _]. lia.
Qed.

Lemma top_ten_views_witness :
  has_columns twelve_species
    ["Plot_Name"; "Scientific_Name"; "Observer"; "AOU_Code"] ∧
  (∃ top, plot_counts twelve_species = Ok top ∧ length top = 10 ∧
          (CStr "P01", 2) ∈ top) ∧
  (∃ top, top_species twelve_species = Ok top ∧ length top = 10 ∧
          (CStr "S01", 3) ∈ top ∧ (CStr "S02", 2) ∈ top ∧
          ∀ x, x ∈ top → 1 ≤ x.2) ∧
  (∃ top, obs_counts twelve_species = Ok top ∧ top = [(CStr "Ann", 15)]).
Proof.
  assert (has_columns twelve_species
            ["Plot_Name"; "Scientific_Name"; "Observer"; "AOU_Code"]) as H
    by by_evaluation.
  split; [exact H|].
  destruct (top_ten_views twelve_species H)
    as ((plots & Hplots & _ & Hlenp & _ & _ & _ & _) &
        (species & Hspecies & _ & Hlens & _ & _ & _ & Hrest) &
        (obs & Hobs & _) & _).
  split; [|split].
  - exists plots. split; [exact Hplots|]. split; [exact Hlenp|].
    assert (Ok (A:=counts) plots = plot_counts twelve_species) as Hp
      by (symmetry; exact Hplots).
    vm_compute in Hp. injection Hp as ->. by_evaluation.
  - exists species. split; [exact Hspecies|]. split; [exact Hlens|].
    assert (Ok (A:=counts) species = top_species twelve_species) as Hs
      by (symmetry; exact Hspecies).
    vm_compute in Hs. injection Hs as ->.
    split; [by_evaluation|]. split; [by_evaluation|].
    intros x Hx.
    assert (CStr "S07" ∈ distinct_values twelve_species "Scientific_Name")
      as H7 by by_evaluation.
    assert (CStr "S07" ∉
              [(CStr "S01", 3); (CStr "S02", 2); (CStr "S09", 1);
               (CStr "S10", 1); (CStr "S11", 1); (CStr "S12", 1);
               (CStr "S03", 1); (CStr "S04", 1); (CStr "S05", 1);
               (CStr "S06", 1)].*1) as Hnot by by_evaluation.
    exact (Hrest (CStr "S07") x H7 Hnot Hx).
  - exists obs. split; [exact Hobs|].
    assert (Ok (A:=counts) obs = obs_counts twelve_species) as Ho
      by (symmetry; exact Hobs).
    vm_compute in Ho. by injection Ho as ->.
Defined.

(** ** The exception of a view whose column is missing *)












(** ** The marker sizes of the scatter chart (line 152) *)







(** ** The fourteen views, one after the other (lines 95 to 199) *)























(** The same on a table with a negative interval length: the page stops
    growing at the scatter chart. *)
Example negative_interval_aborts_page :
  ∃ page,
    run (views no_hours negative_interval_table)
      = (page, Raise (ValueError "Interval_Length")) ∧
    chart_titles page = take 7 dashboard_charts.
Proof. eexists. split; vm_compute; reflexivity. Qed.

(** ** The whole run on a table that can be drawn (lines 52 to 201) *)



